(** * gnuboy, SDL2 backend (sdl2.c): input translation and frame presentation

    A shallow embedding of the key mapper [mapscancode], the joystick axis
    debouncer [joyaxis_evt], the event dispatcher [ev_poll] and the
    begin/end frame pair [vid_begin] / [vid_end], followed by the
    properties of the specification that concern them.

    The file-level statics of sdl2.c are gathered in one record [state];
    every C function that touches them becomes a function [state -> state].
    What the backend hands to its two collaborators is recorded in the
    state as two traces: the events given to [ev_postevent], and the calls
    made into SDL. *)

From Stdlib Require Import ZArith List Bool Lia.
Import ListNotations.
Open Scope Z_scope.

(** ** Host library constants (SDL2 headers) *)

Module SDL.
(* SDL_keycode.h *)
Definition SDLK_RETURN : Z := 13.
(* KMOD_LALT | KMOD_RALT = 0x300 *)
Definition KMOD_ALT : Z := 768.
(* SDL_video.h *)
Definition SDL_WINDOW_FULLSCREEN : Z := 1.
Definition SDL_WINDOWEVENT_SHOWN : Z := 1.
Definition SDL_WINDOWEVENT_HIDDEN : Z := 2.
Definition SDL_WINDOWEVENT_MINIMIZED : Z := 7.
Definition SDL_WINDOWEVENT_RESTORED : Z := 9.
(* SDL_joystick.h *)
Definition SDL_HAT_CENTERED : Z := 0.
Definition SDL_HAT_UP : Z := 1.
Definition SDL_HAT_RIGHT : Z := 2.
Definition SDL_HAT_DOWN : Z := 4.
Definition SDL_HAT_LEFT : Z := 8.
Definition SDL_HAT_RIGHTUP : Z := 3.
Definition SDL_HAT_RIGHTDOWN : Z := 6.
Definition SDL_HAT_LEFTUP : Z := 9.
Definition SDL_HAT_LEFTDOWN : Z := 12.
End SDL.
Import SDL.

(** The members of the [SDL_Event] union that [ev_poll] reads. *)
Inductive SDL_Event : Type :=
| SDL_WINDOWEVENT (window_event : Z)
| SDL_KEYDOWN (sym kmod : Z)
| SDL_KEYUP (sym kmod : Z)
| SDL_JOYHATMOTION (hat_value : Z)
| SDL_JOYAXISMOTION (jaxis_axis jaxis_value : Z)
| SDL_JOYBUTTONUP (button : Z)
| SDL_JOYBUTTONDOWN (button : Z)
| SDL_QUIT
| SDL_OTHEREVENT (type : Z).

(** The SDL entry points called by the frame and dispatch code.  A surface
    is named by its index in [screens]. *)
Inductive sdl_call : Type :=
| SDL_LockSurface (surface : nat)
| SDL_UnlockSurface (surface : nat)
| SDL_UpdateTexture (surface : nat)
| SDL_RenderClear
| SDL_RenderCopy
| SDL_RenderPresent
| SDL_SetWindowFullscreen (flags : Z).

(** ** Data of sdl2.c *)

Inductive joyaxis : Type := JA_X | JA_Y.

Inductive joyaxisvalue : Type :=
| JAV_LEFT_OR_UP
| JAV_CENTERED
| JAV_RIGHT_OR_DOWN.

(** The enumerators' values: JAV_LEFT_OR_UP = 0, JAV_CENTERED = 1,
    JAV_RIGHT_OR_DOWN = 2. *)
Definition jav (v : joyaxisvalue) : Z :=
  match v with
  | JAV_LEFT_OR_UP => 0
  | JAV_CENTERED => 1
  | JAV_RIGHT_OR_DOWN => 2
  end.

Definition JOY_COMMIT_RANGE : Z := 3276.

(** Internal events (input.h): [event_t] with its [type] and [code]. *)
Inductive ev_type : Type := EV_PRESS | EV_RELEASE.

Record event_t : Type := mkEvent { type : ev_type; code : Z }.

(** input.h and sdl/keymap.c are not among the sources: the key codes
    they define and the [keymap] table are parameters of the development.
    [keymap] lists the rows of the extern array that precede its closing
    all-zero row; the end of the list stands for that row. *)
Class input_h : Type := {
  K_JOY0 : Z;
  K_JOYLEFT : Z;
  K_JOYRIGHT : Z;
  K_JOYUP : Z;
  K_JOYDOWN : Z;
  keymap : list (Z * Z)
}.

(** One choice of codes and table, to run the model on concrete inputs. *)
Definition sample_input_h : input_h := {|
  K_JOY0 := 432;
  K_JOYLEFT := 450;
  K_JOYRIGHT := 451;
  K_JOYUP := 448;
  K_JOYDOWN := 449;
  keymap := [ (13, 13); (27, 27); (32, 32); (97, 300) ]
|}.

(** The statics of sdl2.c, the fields of [fb] the frame code writes, and
    the two traces (oldest entry first). *)
Record state : Type := mkState {
  fullscreen : Z;
  use_altenter : Z;
  Xstatus : joyaxisvalue;
  Ystatus : joyaxisvalue;
  screen : nat;                 (* i such that screen == screens[i] *)
  fb_ptr : nat;                 (* i such that fb.ptr == screens[i]->pixels *)
  fb_enabled : Z;
  fb_dirty : Z;
  posted : list event_t;        (* arguments of ev_postevent *)
  host : list sdl_call          (* calls into SDL *)
}.

Definition set_fullscreen (v : Z) (s : state) : state :=
  mkState v (use_altenter s) (Xstatus s) (Ystatus s) (screen s) (fb_ptr s)
          (fb_enabled s) (fb_dirty s) (posted s) (host s).

Definition set_use_altenter (v : Z) (s : state) : state :=
  mkState (fullscreen s) v (Xstatus s) (Ystatus s) (screen s) (fb_ptr s)
          (fb_enabled s) (fb_dirty s) (posted s) (host s).

Definition set_Xstatus (v : joyaxisvalue) (s : state) : state :=
  mkState (fullscreen s) (use_altenter s) v (Ystatus s) (screen s) (fb_ptr s)
          (fb_enabled s) (fb_dirty s) (posted s) (host s).

Definition set_Ystatus (v : joyaxisvalue) (s : state) : state :=
  mkState (fullscreen s) (use_altenter s) (Xstatus s) v (screen s) (fb_ptr s)
          (fb_enabled s) (fb_dirty s) (posted s) (host s).

Definition set_screen (i : nat) (s : state) : state :=
  mkState (fullscreen s) (use_altenter s) (Xstatus s) (Ystatus s) i (fb_ptr s)
          (fb_enabled s) (fb_dirty s) (posted s) (host s).

Definition set_fb_ptr (i : nat) (s : state) : state :=
  mkState (fullscreen s) (use_altenter s) (Xstatus s) (Ystatus s) (screen s) i
          (fb_enabled s) (fb_dirty s) (posted s) (host s).

Definition set_fb_enabled (v : Z) (s : state) : state :=
  mkState (fullscreen s) (use_altenter s) (Xstatus s) (Ystatus s) (screen s)
          (fb_ptr s) v (fb_dirty s) (posted s) (host s).

Definition set_fb_dirty (v : Z) (s : state) : state :=
  mkState (fullscreen s) (use_altenter s) (Xstatus s) (Ystatus s) (screen s)
          (fb_ptr s) (fb_enabled s) v (posted s) (host s).

(** A call into SDL is appended to the host trace. *)
Definition sdl (c : sdl_call) (s : state) : state :=
  mkState (fullscreen s) (use_altenter s) (Xstatus s) (Ystatus s) (screen s)
          (fb_ptr s) (fb_enabled s) (fb_dirty s) (posted s) (host s ++ [c]).

(** Modelled from the spec: [ev_postevent] belongs to the emulator core,
    which is not among the sources.  The backend "posts resulting internal
    events to the core's event queue", "a FIFO the core drains": the event
    is appended to the trace of posted events. *)
Definition ev_postevent (ev : event_t) (s : state) : state :=
  mkState (fullscreen s) (use_altenter s) (Xstatus s) (Ystatus s) (screen s)
          (fb_ptr s) (fb_enabled s) (fb_dirty s) (posted s ++ [ev]) (host s).

(** Statements of a C function body run left to right. *)
Definition cmd : Type := state -> state.
Definition skip : cmd := fun s => s.
Definition seq (c1 c2 : cmd) : cmd := fun s => c2 (c1 s).
Notation "c1 ;; c2" := (seq c1 c2) (at level 61, right associativity).

(** [c != 0] as C tests it. *)
Definition nonzero (c : Z) : bool := negb (c =? 0).

Definition jav_eqb (a b : joyaxisvalue) : bool := jav a =? jav b.

Section Backend.

Context {keys : input_h}.

(** ** Key mapper *)

(** The [for] loop of [mapscancode]: [Some c] when it returns [c] from
    inside the loop, [None] when the loop ends at a row whose first entry
    is zero. *)
Fixpoint mapscancode_scan (rows : list (Z * Z)) (sym : Z) : option Z :=
  match rows with
  | [] => None
  | (k, c) :: rows' =>
      if nonzero k then
        if k =? sym then Some c else mapscancode_scan rows' sym
      else None
  end.

Definition mapscancode (sym : Z) : Z :=
  match mapscancode_scan keymap sym with
  | Some c => c
  | None =>
      if (sym >=? 48) && (sym <=? 57) then sym          (* '0' .. '9' *)
      else if (sym >=? 97) && (sym <=? 122) then sym    (* 'a' .. 'z' *)
      else 0
  end.

(** ** joy_init (the part that precedes the device probing) *)

Definition joy_init : cmd :=
  set_Xstatus JAV_CENTERED ;; set_Ystatus JAV_CENTERED.

(** ** Axis debouncer *)

(** [axis_data[axis].action] *)
Definition axis_action (axis : joyaxis) : list Z :=
  match axis with
  | JA_X => [K_JOYLEFT; 0; K_JOYRIGHT]
  | JA_Y => [K_JOYUP; 0; K_JOYDOWN]
  end.

(** [axis_data[axis].action[v]] *)
Definition action (axis : joyaxis) (v : joyaxisvalue) : Z :=
  nth (Z.to_nat (jav v)) (axis_action axis) 0.

(** [*axis_data[axis].axis], read and written *)
Definition axis_status (axis : joyaxis) (s : state) : joyaxisvalue :=
  match axis with
  | JA_X => Xstatus s
  | JA_Y => Ystatus s
  end.

Definition set_axis_status (axis : joyaxis) (v : joyaxisvalue) : cmd :=
  match axis with
  | JA_X => set_Xstatus v
  | JA_Y => set_Ystatus v
  end.

Definition joyaxis_evt (axis : joyaxis) (newstate : joyaxisvalue) : cmd :=
  fun s =>
    if jav_eqb (axis_status axis s) newstate then s
    else
      (* release last state *)
      (ev_postevent (mkEvent EV_RELEASE (action axis (axis_status axis s))) ;;
       (* store new state *)
       set_axis_status axis newstate ;;
       (* fire new event, if necessary *)
       (if negb (jav newstate =? 1)
        then ev_postevent (mkEvent EV_PRESS (action axis newstate))
        else skip)) s.

(** ** Event dispatcher *)

(** The three-way test of the SDL_JOYAXISMOTION case on
    [event.jaxis.value]. *)
Definition jaxis_newstate (value : Z) : joyaxisvalue :=
  if value >? JOY_COMMIT_RANGE then JAV_RIGHT_OR_DOWN
  else if value <? - JOY_COMMIT_RANGE then JAV_LEFT_OR_UP
  else JAV_CENTERED.

(** How one pass of the [while] body ends: back to [SDL_PollEvent], or in
    [exit]. *)
Inductive outcome : Type :=
| Returned (s : state)
| Exited (status : Z) (s : state).

(** The [switch (event.jhat.value)] of the SDL_JOYHATMOTION case. *)
Definition hat_motion (value : Z) : cmd :=
  if value =? SDL_HAT_LEFTUP then
    joyaxis_evt JA_X JAV_LEFT_OR_UP ;; joyaxis_evt JA_Y JAV_LEFT_OR_UP
  else if value =? SDL_HAT_UP then
    joyaxis_evt JA_Y JAV_LEFT_OR_UP
  else if value =? SDL_HAT_RIGHTUP then
    joyaxis_evt JA_X JAV_RIGHT_OR_DOWN ;; joyaxis_evt JA_Y JAV_LEFT_OR_UP
  else if value =? SDL_HAT_LEFT then
    joyaxis_evt JA_X JAV_LEFT_OR_UP
  else if value =? SDL_HAT_CENTERED then
    joyaxis_evt JA_X JAV_CENTERED ;; joyaxis_evt JA_Y JAV_CENTERED
  else if value =? SDL_HAT_RIGHT then
    joyaxis_evt JA_X JAV_RIGHT_OR_DOWN
  else if value =? SDL_HAT_LEFTDOWN then
    joyaxis_evt JA_X JAV_LEFT_OR_UP ;; joyaxis_evt JA_Y JAV_RIGHT_OR_DOWN
  else if value =? SDL_HAT_DOWN then
    joyaxis_evt JA_Y JAV_RIGHT_OR_DOWN
  else if value =? SDL_HAT_RIGHTDOWN then
    joyaxis_evt JA_X JAV_RIGHT_OR_DOWN ;; joyaxis_evt JA_Y JAV_RIGHT_OR_DOWN
  else skip.

(** The [switch (event.type)] of [ev_poll], for one polled event. *)
Definition ev_switch (event : SDL_Event) (s : state) : outcome :=
  match event with
  | SDL_WINDOWEVENT e =>
      if (e =? SDL_WINDOWEVENT_MINIMIZED) || (e =? SDL_WINDOWEVENT_HIDDEN)
      then Returned (set_fb_enabled 0 s)
      else if (e =? SDL_WINDOWEVENT_SHOWN) || (e =? SDL_WINDOWEVENT_RESTORED)
      then Returned (set_fb_enabled 1 s)
      else Returned s
  | SDL_KEYDOWN sym kmod =>
      Returned
        (((if (sym =? SDLK_RETURN) && nonzero (Z.land kmod KMOD_ALT)
           then (fun s =>
                   sdl (SDL_SetWindowFullscreen
                          (if nonzero (fullscreen s) then 0
                           else SDL_WINDOW_FULLSCREEN)) s) ;;
                (fun s =>
                   set_fullscreen (if nonzero (fullscreen s) then 0 else 1) s)
           else skip) ;;
          ev_postevent (mkEvent EV_PRESS (mapscancode sym))) s)
  | SDL_KEYUP sym _ =>
      Returned (ev_postevent (mkEvent EV_RELEASE (mapscancode sym)) s)
  | SDL_JOYHATMOTION value =>
      Returned (hat_motion value s)
  | SDL_JOYAXISMOTION axis value =>
      if axis =? 0 then Returned (joyaxis_evt JA_X (jaxis_newstate value) s)
      else if axis =? 1 then Returned (joyaxis_evt JA_Y (jaxis_newstate value) s)
      else Returned s
  | SDL_JOYBUTTONUP button =>
      if button >? 15 then Returned s
      else Returned (ev_postevent (mkEvent EV_RELEASE (K_JOY0 + button)) s)
  | SDL_JOYBUTTONDOWN button =>
      if button >? 15 then Returned s
      else Returned (ev_postevent (mkEvent EV_PRESS (K_JOY0 + button)) s)
  | SDL_QUIT => Exited 1 s
  | SDL_OTHEREVENT _ => Returned s
  end.

(** [ev_poll]: [pending] is what [SDL_PollEvent] will deliver, in order;
    the loop ends when it is empty. *)
Fixpoint ev_poll (pending : list SDL_Event) (s : state) : outcome :=
  match pending with
  | [] => Returned s
  | event :: pending' =>
      match ev_switch event s with
      | Returned s' => ev_poll pending' s'
      | Exited status s' => Exited status s'
      end
  end.

(** ** Frame presentation *)

(** The part of [vid_init] that sets the statics modelled here: window,
    renderer, surfaces and texture are taken as successfully created. *)
Definition vid_init : cmd :=
  set_screen 0 ;;
  joy_init ;;
  (fun s => sdl (SDL_LockSurface (screen s)) s) ;;
  (fun s => set_fb_ptr (screen s) s) ;;
  (fun s => sdl (SDL_UnlockSurface (screen s)) s) ;;
  set_fb_enabled 1 ;;
  set_fb_dirty 0.

Definition vid_begin : cmd :=
  (fun s => sdl (SDL_LockSurface (screen s)) s) ;;
  (fun s => set_fb_ptr (screen s) s).

Definition vid_end : cmd :=
  (fun s => sdl (SDL_UnlockSurface (screen s)) s) ;;
  (fun s =>
     if nonzero (fb_enabled s) then
       ((fun s => sdl (SDL_UpdateTexture (screen s)) s) ;;
        sdl SDL_RenderClear ;;
        sdl SDL_RenderCopy ;;
        sdl SDL_RenderPresent ;;
        (fun s => if (screen s =? 0)%nat then set_screen 1 s
                  else set_screen 1 s)) s
     else s).

(** One begin/end cycle, and [n] of them. *)
Definition frame : cmd := vid_begin ;; vid_end.

Fixpoint frames (n : nat) : cmd :=
  match n with
  | O => skip
  | S n' => frame ;; frames n'
  end.

(** An ASCII digit or lowercase letter: the two range tests that follow
    the loop of [mapscancode]. *)
Definition alnum (sym : Z) : Prop := 48 <= sym <= 57 \/ 97 <= sym <= 122.

(** ** Observing a run *)

(** The events a command adds to the trace of posted events, and the calls
    it adds to the host trace. *)
Definition posted_by (c : cmd) (s : state) : list event_t :=
  skipn (length (posted s)) (posted (c s)).

Definition host_by (c : cmd) (s : state) : list sdl_call :=
  skipn (length (host s)) (host (c s)).

Definition state_of (o : outcome) : state :=
  match o with
  | Returned s => s
  | Exited _ s => s
  end.

Definition outcome_map (f : state -> state) (o : outcome) : outcome :=
  match o with
  | Returned s => Returned (f s)
  | Exited status s => Exited status (f s)
  end.

(** A call of [ev_poll] that finds one event pending. *)
Definition ev_poll1 (event : SDL_Event) : cmd :=
  fun s => state_of (ev_poll [event] s).

(** One [ev_poll] per host event: the events each poll posts, in order. *)
Fixpoint poll_trace (events : list SDL_Event) (s : state)
  : list (list event_t) :=
  match events with
  | [] => []
  | event :: events' =>
      posted_by (ev_poll1 event) s :: poll_trace events' (ev_poll1 event s)
  end.

(** The X-axis motion events that carry the given raw readings. *)
Definition x_readings (values : list Z) : list SDL_Event :=
  map (SDL_JOYAXISMOTION 0) values.

End Backend.

(** The statics as the C initialisers leave them, before [vid_init]. *)
Definition startup : state :=
  mkState 0 1 JAV_LEFT_OR_UP JAV_LEFT_OR_UP 0 0 0 0 [] [].

(** A frame opened while the window is hidden: [vid_init], then
    [fb.enabled] cleared as the SDL_WINDOWEVENT_HIDDEN case does, then
    [vid_begin]. *)
Definition hidden_frame : state :=
  vid_begin (set_fb_enabled 0 (vid_init startup)).

(** ** Counting press and release events *)

Definition ev_type_eqb (a b : ev_type) : bool :=
  match a, b with
  | EV_PRESS, EV_PRESS => true
  | EV_RELEASE, EV_RELEASE => true
  | _, _ => false
  end.

(** The number of events of kind [t] with code [c] in a trace. *)
Definition count_ev (t : ev_type) (c : Z) (l : list event_t) : Z :=
  Z.of_nat
    (length (filter (fun e => ev_type_eqb t (type e) && (code e =? c)) l)).

(** 1 when the register of [axis] holds [v], 0 otherwise. *)
Definition holds (axis : joyaxis) (v : joyaxisvalue) (s : state) : Z :=
  if jav_eqb (axis_status axis s) v then 1 else 0.

(** Presses minus releases of the key bound to ([axis], [v]) in the trace
    of posted events, minus 1 when the register says that key is down. *)
Definition balance {keys : input_h}
  (axis : joyaxis) (v : joyaxisvalue) (s : state) : Z :=
  count_ev EV_PRESS (action axis v) (posted s)
  - count_ev EV_RELEASE (action axis v) (posted s)
  - holds axis v s.

(** The four directional codes are non-zero and pairwise distinct. *)
Definition directional_codes_distinct {keys : input_h} : Prop :=
  K_JOYLEFT <> 0 /\ K_JOYRIGHT <> 0 /\ K_JOYUP <> 0 /\ K_JOYDOWN <> 0 /\
  K_JOYLEFT <> K_JOYRIGHT /\ K_JOYLEFT <> K_JOYUP /\ K_JOYLEFT <> K_JOYDOWN /\
  K_JOYRIGHT <> K_JOYUP /\ K_JOYRIGHT <> K_JOYDOWN /\ K_JOYUP <> K_JOYDOWN.

(** A run of debouncer calls, in order. *)
Fixpoint joyaxis_evts {keys : input_h}
  (updates : list (joyaxis * joyaxisvalue)) : cmd :=
  match updates with
  | [] => skip
  | (axis, v) :: updates' => joyaxis_evt axis v ;; joyaxis_evts updates'
  end.

(** Hat and axis motion events: the events [ev_poll] routes to the
    debouncer. *)
Definition joy_motion (event : SDL_Event) : Prop :=
  match event with
  | SDL_JOYHATMOTION _ | SDL_JOYAXISMOTION _ _ => True
  | _ => False
  end.

(** The nine hat positions of SDL_joystick.h. *)
Definition hat_positions : list Z :=
  [ SDL_HAT_CENTERED; SDL_HAT_UP; SDL_HAT_RIGHT; SDL_HAT_DOWN; SDL_HAT_LEFT;
    SDL_HAT_RIGHTUP; SDL_HAT_RIGHTDOWN; SDL_HAT_LEFTUP; SDL_HAT_LEFTDOWN ].

(** A hat position read as the bit mask it is (UP = 1, RIGHT = 2,
    DOWN = 4, LEFT = 8): the horizontal and the vertical state it shows,
    [old] when it shows none and is not the centre. *)
Definition hat_x (value : Z) (old : joyaxisvalue) : joyaxisvalue :=
  if nonzero (Z.land value SDL_HAT_LEFT) then JAV_LEFT_OR_UP
  else if nonzero (Z.land value SDL_HAT_RIGHT) then JAV_RIGHT_OR_DOWN
  else if value =? SDL_HAT_CENTERED then JAV_CENTERED
  else old.

Definition hat_y (value : Z) (old : joyaxisvalue) : joyaxisvalue :=
  if nonzero (Z.land value SDL_HAT_UP) then JAV_LEFT_OR_UP
  else if nonzero (Z.land value SDL_HAT_DOWN) then JAV_RIGHT_OR_DOWN
  else if value =? SDL_HAT_CENTERED then JAV_CENTERED
  else old.

(** The RELEASE of the key an axis register holds, if it holds one. *)
Definition release_held {keys : input_h} (axis : joyaxis) (s : state)
  : list event_t :=
  if jav_eqb (axis_status axis s) JAV_CENTERED then []
  else [mkEvent EV_RELEASE (action axis (axis_status axis s))].

(** [s'] has the posted events of [s] followed by at most [n] more. *)
Definition posts_at_most (n : nat) (s s' : state) : Prop :=
  exists l, posted s' = posted s ++ l /\ (length l <= n)%nat.

(** The calls one begin/end cycle makes on surface [i]: without and with
    presentation. *)
Definition hidden_frame_calls (i : nat) : list sdl_call :=
  [ SDL_LockSurface i; SDL_UnlockSurface i ].

Definition shown_frame_calls (i : nat) : list sdl_call :=
  [ SDL_LockSurface i; SDL_UnlockSurface i; SDL_UpdateTexture i;
    SDL_RenderClear; SDL_RenderCopy; SDL_RenderPresent ].

Definition is_set_fullscreen (c : sdl_call) : Prop :=
  match c with
  | SDL_SetWindowFullscreen _ => True
  | _ => False
  end.

(** [s'] differs from [s] in nothing the frame code reads or writes but
    [fb.enabled], and its host trace is that of [s] followed by calls of
    SDL_SetWindowFullscreen only. *)
Definition frame_untouched (s s' : state) : Prop :=
  screen s' = screen s /\ fb_ptr s' = fb_ptr s /\ fb_dirty s' = fb_dirty s /\
  exists l, host s' = host s ++ l /\ Forall is_set_fullscreen l.

(** ** joy_init, the device probing

    The statics [use_joy], [sdl_joy] and [sdl_joy_num], the answers of
    SDL's joystick subsystem, and the calls made to it.  [sdl_joy] is
    [None] for NULL; a handle is named by a number. *)

Record joy_host : Type := mkJoyHost {
  SDL_InitSubSystem : Z;               (* return value for SDL_INIT_JOYSTICK *)
  SDL_NumJoysticks : Z;
  SDL_JoystickOpen : Z -> option nat
}.

Inductive joy_call : Type :=
| call_InitSubSystem
| call_NumJoysticks
| call_JoystickOpen (device_index : Z)
| call_JoystickEventState (enable : Z).

Definition SDL_ENABLE : Z := 1.

Record joy_statics : Type := mkJoy {
  use_joy : Z;
  sdl_joy : option nat;
  sdl_joy_num : Z;
  joy_calls : list joy_call          (* oldest first *)
}.

Definition joy_call_log (c : joy_call) (j : joy_statics) : joy_statics :=
  mkJoy (use_joy j) (sdl_joy j) (sdl_joy_num j) (joy_calls j ++ [c]).

Definition set_sdl_joy (h : option nat) (j : joy_statics) : joy_statics :=
  mkJoy (use_joy j) h (sdl_joy_num j) (joy_calls j).

Definition set_sdl_joy_num (i : Z) (j : joy_statics) : joy_statics :=
  mkJoy (use_joy j) (sdl_joy j) i (joy_calls j).

(** The [for (i = 0; i < joy_count; i++)] loop, entered at index [i] with
    [left] iterations to go. *)
Fixpoint joy_open_loop (h : joy_host) (left : nat) (i : Z) (j : joy_statics)
  : joy_statics :=
  match left with
  | O => j
  | S left' =>
      let j := set_sdl_joy (SDL_JoystickOpen h i)
                 (joy_call_log (call_JoystickOpen i) j) in
      match sdl_joy j with
      | Some _ => set_sdl_joy_num i j                       (* break *)
      | None => joy_open_loop h left' (i + 1) j
      end
  end.

(** [joy_init] after its first line. *)
Definition joy_init_devices (h : joy_host) (j : joy_statics) : joy_statics :=
  if negb (nonzero (use_joy j)) then j
  else
    let j := joy_call_log call_InitSubSystem j in
    if nonzero (SDL_InitSubSystem h) then j
    else
      let j := joy_call_log call_NumJoysticks j in
      let joy_count := SDL_NumJoysticks h in
      if negb (nonzero joy_count) then j
      else
        let j := joy_open_loop h (Z.to_nat joy_count) 0 j in
        joy_call_log (call_JoystickEventState SDL_ENABLE) j.

(** The device indices 0 .. n-1, in order. *)
Definition device_indices (n : nat) : list Z :=
  map Z.of_nat (List.seq 0%nat n).

(** ** vid_init, the window set-up *)

Definition SDL_WINDOW_OPENGL : Z := 2.

(** [int] arithmetic: the result reduced to 32 bits, two's complement. *)
Definition int32 (x : Z) : Z := (x + 2147483648) mod 4294967296 - 2147483648.

(** What [vid_init] asks of SDL: it ends in [die], or a window of the
    given size and flags has been created and the renderer is given
    [render_scale] in both directions. *)
Inductive vid_setup : Type :=
| Died
| Window (w h flags render_scale : Z).

(** [vid_init] up to [SDL_RenderSetScale]: [scale] is what
    [rc_getint("scale")] returns, [sdl_init] what [SDL_Init] returns and
    [win] whether [SDL_CreateWindow] returns a window. *)
Definition vid_init_setup
  (vmode0 vmode1 scale fullscreen sdl_init : Z) (win : bool) : vid_setup :=
  let derive := negb (nonzero vmode0) || negb (nonzero vmode1) in
  let scale := if derive then (if scale <? 1 then 1 else scale) else scale in
  let vmode0 := if derive then int32 (160 * scale) else vmode0 in
  let vmode1 := if derive then int32 (144 * scale) else vmode1 in
  let flags := SDL_WINDOW_OPENGL in
  let flags :=
    if nonzero fullscreen then Z.lor flags SDL_WINDOW_FULLSCREEN else flags in
  if nonzero sdl_init then Died
  else if negb win then Died
  else Window vmode0 vmode1 flags scale.

(** The joystick statics as the C initialisers leave them, and two
    hosts: one with three devices of which only device 1 opens, one with
    two devices of which none opens. *)
Definition joy_startup : joy_statics := mkJoy 1 None 0 [].

Definition sample_joy_host : joy_host :=
  mkJoyHost 0 3 (fun i => if i =? 1 then Some 7%nat else None).

Definition closed_joy_host : joy_host := mkJoyHost 0 2 (fun _ => None).

(** * Properties *)

(** ** Traces *)

Lemma skipn_length_app {A} (l k : list A) : skipn (length l) (l ++ k) = k.
Proof. induction l as [|a l IH]; simpl; auto. Qed.

Lemma posted_by_intro (c : cmd) (s : state) (l : list event_t) :
  posted (c s) = posted s ++ l -> posted_by c s = l.
Proof. unfold posted_by. intros ->. apply skipn_length_app. Qed.

Lemma host_by_intro (c : cmd) (s : state) (l : list sdl_call) :
  host (c s) = host s ++ l -> host_by c s = l.
Proof. unfold host_by. intros ->. apply skipn_length_app. Qed.

Lemma jav_eqb_eq (a b : joyaxisvalue) : jav_eqb a b = true <-> a = b.
Proof. destruct a, b; unfold jav_eqb; simpl; split; congruence. Qed.

Lemma jav_eqb_refl (a : joyaxisvalue) : jav_eqb a a = true.
Proof. now apply jav_eqb_eq. Qed.

Section Debouncer.

Context {keys : input_h}.

Lemma action_centered (axis : joyaxis) : action axis JAV_CENTERED = 0.
Proof. destruct axis; reflexivity. Qed.

(** What one call of the debouncer posts, by cases on the stored state. *)
Lemma joyaxis_evt_posted (axis : joyaxis) (v : joyaxisvalue) (s : state) :
  posted (joyaxis_evt axis v s) =
  posted s ++
    (if jav_eqb (axis_status axis s) v then []
     else mkEvent EV_RELEASE (action axis (axis_status axis s))
          :: (if negb (jav v =? 1) then [mkEvent EV_PRESS (action axis v)]
              else [])).
Proof.
  unfold joyaxis_evt, seq, skip.
  destruct (jav_eqb (axis_status axis s) v).
  - now rewrite app_nil_r.
  - destruct axis, v; simpl; rewrite <- ?app_assoc; reflexivity.
Qed.

Lemma joyaxis_evt_status (axis : joyaxis) (v : joyaxisvalue) (s : state) :
  axis_status axis (joyaxis_evt axis v s) = v.
Proof.
  unfold joyaxis_evt, seq, skip.
  destruct (jav_eqb (axis_status axis s) v) eqn:E.
  - now apply jav_eqb_eq.
  - destruct axis, v; reflexivity.
Qed.

Lemma joyaxis_evt_same (axis : joyaxis) (v : joyaxisvalue) (s : state) :
  axis_status axis s = v -> joyaxis_evt axis v s = s.
Proof.
  intros <-. unfold joyaxis_evt. now rewrite jav_eqb_refl.
Qed.

Lemma joyaxis_evt_posted_by (axis : joyaxis) (v : joyaxisvalue) (s : state) :
  posted_by (joyaxis_evt axis v) s =
    (if jav_eqb (axis_status axis s) v then []
     else mkEvent EV_RELEASE (action axis (axis_status axis s))
          :: (if negb (jav v =? 1) then [mkEvent EV_PRESS (action axis v)]
              else [])).
Proof. apply posted_by_intro, joyaxis_evt_posted. Qed.

(** C1, as amended.  When the axis is stored as CENTERED, an update to a
    non-centered state posts two events: a RELEASE whose code is 0, the
    action table's entry for CENTERED, and then one PRESS for the key bound
    to (axis, state).  A RELEASE with a non-zero code, that is with the
    code of a directional key, is posted only when the state stored before
    the update is not CENTERED. *)
Theorem joyaxis_evt_from_centered
  (axis : joyaxis) (v : joyaxisvalue) (s : state) :
  (axis_status axis s = JAV_CENTERED -> v <> JAV_CENTERED ->
   posted_by (joyaxis_evt axis v) s =
     [mkEvent EV_RELEASE 0; mkEvent EV_PRESS (action axis v)]) /\
  (forall c : Z,
     In (mkEvent EV_RELEASE c) (posted_by (joyaxis_evt axis v) s) ->
     c <> 0 ->
     axis_status axis s <> JAV_CENTERED /\
     c = action axis (axis_status axis s)).
Proof.
  rewrite joyaxis_evt_posted_by. split.
  - intros Hc Hv. rewrite Hc.
    destruct v; try congruence; now rewrite action_centered.
  - intros c Hin Hnz.
    destruct (jav_eqb (axis_status axis s) v); [ contradiction | ].
    assert (Hrel : c = action axis (axis_status axis s)).
    { destruct Hin as [E | Hin]; [ congruence | ].
      destruct (negb (jav v =? 1)); simpl in Hin;
        [ destruct Hin as [E | []]; discriminate | contradiction ]. }
    split; [ | exact Hrel ].
    intros Hc. rewrite Hc, action_centered in Hrel. contradiction.
Qed.

(** C7.  Two updates in a row with the same state: the second call
    returns at once, so it posts nothing and leaves every static as the
    first call left it; the two calls together post what the first one
    posts, which is nothing, one RELEASE, or one RELEASE followed by one
    PRESS. *)
Theorem joyaxis_evt_idempotent
  (axis : joyaxis) (v : joyaxisvalue) (s : state) :
  joyaxis_evt axis v (joyaxis_evt axis v s) = joyaxis_evt axis v s /\
  posted_by (joyaxis_evt axis v) (joyaxis_evt axis v s) = [] /\
  posted_by (joyaxis_evt axis v ;; joyaxis_evt axis v) s =
    posted_by (joyaxis_evt axis v) s /\
  (let released := mkEvent EV_RELEASE (action axis (axis_status axis s)) in
   let pressed := mkEvent EV_PRESS (action axis v) in
   posted_by (joyaxis_evt axis v) s = [] \/
   posted_by (joyaxis_evt axis v) s = [released] \/
   posted_by (joyaxis_evt axis v) s = [released; pressed]).
Proof.
  assert (Hsame : joyaxis_evt axis v (joyaxis_evt axis v s)
                  = joyaxis_evt axis v s)
    by apply joyaxis_evt_same, joyaxis_evt_status.
  repeat split.
  - exact Hsame.
  - apply posted_by_intro. rewrite Hsame. now rewrite app_nil_r.
  - unfold posted_by, seq. now rewrite Hsame.
  - cbv zeta. rewrite joyaxis_evt_posted_by.
    destruct (jav_eqb (axis_status axis s) v); [ now left | right ].
    destruct (negb (jav v =? 1)); [ now right | now left ].
Qed.

End Debouncer.

(** C1, the claim as it is written fails: from the state [vid_init]
    leaves, with the X axis CENTERED, the update to RIGHT_OR_DOWN posts a
    RELEASE (with code 0) before the PRESS of K_JOYRIGHT. *)
Lemma joyaxis_evt_centered_posts_release :
  axis_status JA_X (vid_init startup) = JAV_CENTERED /\
  posted_by (joyaxis_evt (keys := sample_input_h) JA_X JAV_RIGHT_OR_DOWN)
            (vid_init startup)
  = [mkEvent EV_RELEASE 0; mkEvent EV_PRESS 451] /\
  posted_by (joyaxis_evt (keys := sample_input_h) JA_X JAV_RIGHT_OR_DOWN)
            (vid_init startup)
  <> [mkEvent EV_PRESS (action (keys := sample_input_h) JA_X JAV_RIGHT_OR_DOWN)].
Proof. repeat split. discriminate. Qed.

Lemma joyaxis_evt_from_centered_witness :
  posted_by (joyaxis_evt (keys := sample_input_h) JA_Y JAV_LEFT_OR_UP)
            (vid_init startup)
  = [mkEvent EV_RELEASE 0; mkEvent EV_PRESS 448] /\
  (axis_status JA_X (joyaxis_evt (keys := sample_input_h) JA_X
                       JAV_RIGHT_OR_DOWN (vid_init startup))
   <> JAV_CENTERED /\
   451 = action (keys := sample_input_h) JA_X
           (axis_status JA_X (joyaxis_evt (keys := sample_input_h) JA_X
                                JAV_RIGHT_OR_DOWN (vid_init startup)))).
Proof.
  split.
  - apply (proj1 (joyaxis_evt_from_centered (keys := sample_input_h)
                    JA_Y JAV_LEFT_OR_UP (vid_init startup)));
      [ reflexivity | discriminate ].
  - apply (proj2 (joyaxis_evt_from_centered (keys := sample_input_h)
                    JA_X JAV_LEFT_OR_UP
                    (joyaxis_evt (keys := sample_input_h) JA_X
                       JAV_RIGHT_OR_DOWN (vid_init startup))) 451);
      [ simpl; auto | lia ].
Defined.

(** ** Key mapper *)

Section KeyMapper.

Context {keys : input_h}.

Lemma mapscancode_scan_first (pre post : list (Z * Z)) (sym c : Z) :
  sym <> 0 ->
  (forall r, In r pre -> fst r <> 0 /\ fst r <> sym) ->
  mapscancode_scan (pre ++ (sym, c) :: post) sym = Some c.
Proof.
  intros Hsym. induction pre as [|[k c'] pre IH]; intros Hpre; simpl.
  - unfold nonzero.
    destruct (Z.eqb_spec sym 0); [ contradiction | ]. simpl.
    now rewrite Z.eqb_refl.
  - destruct (Hpre (k, c') (or_introl eq_refl)) as [Hk0 Hks]. simpl in *.
    unfold nonzero. destruct (Z.eqb_spec k 0); [ contradiction | ]. simpl.
    destruct (Z.eqb_spec k sym); [ contradiction | ].
    apply IH. intros r Hr. apply Hpre. now right.
Qed.

Lemma mapscancode_scan_absent (rows : list (Z * Z)) (sym : Z) :
  ~ In sym (map fst rows) -> mapscancode_scan rows sym = None.
Proof.
  induction rows as [|[k c] rows IH]; simpl; intros Hn; [ reflexivity | ].
  destruct (nonzero k); [ | reflexivity ].
  destruct (Z.eqb_spec k sym) as [E | _]; [ exfalso; auto | ].
  apply IH. intros Hin. apply Hn. now right.
Qed.

Lemma mapscancode_unmapped (sym : Z) :
  mapscancode_scan keymap sym = None ->
  (alnum sym -> mapscancode sym = sym) /\
  (~ alnum sym -> mapscancode sym = 0).
Proof.
  unfold mapscancode, alnum. intros ->. split; intros H.
  - destruct (sym >=? 48) eqn:E1, (sym <=? 57) eqn:E2; simpl; try reflexivity;
      destruct (sym >=? 97) eqn:E3, (sym <=? 122) eqn:E4; simpl;
      try reflexivity; lia.
  - destruct (sym >=? 48) eqn:E1, (sym <=? 57) eqn:E2; simpl;
      try (exfalso; apply H; lia);
      destruct (sym >=? 97) eqn:E3, (sym <=? 122) eqn:E4; simpl;
      try reflexivity; exfalso; apply H; lia.
Qed.

(** C6.  [mapscancode] is a function of the symbol alone (and of the
    table): it returns a code for every symbol and reads no static.  A
    symbol found in the table, in a row before the closing row, is mapped
    to the code its first row pairs it with.  A symbol in no row is mapped
    to itself when it is an ASCII digit or lowercase letter, and to 0
    otherwise. *)
Theorem mapscancode_total (sym : Z) :
  (forall (pre post : list (Z * Z)) (c : Z),
     keymap = pre ++ (sym, c) :: post ->
     sym <> 0 ->
     (forall r, In r pre -> fst r <> 0 /\ fst r <> sym) ->
     mapscancode sym = c) /\
  (~ In sym (map fst keymap) -> alnum sym -> mapscancode sym = sym) /\
  (~ In sym (map fst keymap) -> ~ alnum sym -> mapscancode sym = 0).
Proof.
  repeat split.
  - intros pre post c Hk Hsym Hpre. unfold mapscancode.
    now rewrite Hk, mapscancode_scan_first.
  - intros Hn. now apply mapscancode_unmapped, mapscancode_scan_absent.
  - intros Hn. now apply mapscancode_unmapped, mapscancode_scan_absent.
Qed.

(** With the keys of the table pairwise distinct and none of them zero,
    every row of the table gives the value of [mapscancode] at its key. *)
Corollary mapscancode_row (sym c : Z) :
  NoDup (map fst keymap) ->
  Forall (fun r => fst r <> 0) keymap ->
  In (sym, c) keymap ->
  mapscancode sym = c.
Proof.
  intros Hnd Hnz Hin.
  destruct (in_split _ _ Hin) as (pre & post & Hk).
  unfold mapscancode. rewrite Hk, mapscancode_scan_first; [ reflexivity | | ].
  - rewrite Forall_forall in Hnz. exact (Hnz _ Hin).
  - intros r Hr. split.
    + rewrite Forall_forall in Hnz. apply Hnz. rewrite Hk.
      apply in_or_app. now left.
    + intros E. rewrite Hk, map_app in Hnd. simpl in Hnd.
      apply NoDup_remove_2 in Hnd. apply Hnd.
      apply in_or_app. left. rewrite <- E. now apply in_map.
Qed.

End KeyMapper.

Lemma mapscancode_total_witness :
  mapscancode (keys := sample_input_h) 97 = 300 /\
  mapscancode (keys := sample_input_h) 98 = 98 /\
  mapscancode (keys := sample_input_h) 200 = 0.
Proof.
  split; [ | split ].
  - apply (proj1 (mapscancode_total (keys := sample_input_h) 97)
             [(13, 13); (27, 27); (32, 32)] [] 300).
    + reflexivity.
    + discriminate.
    + simpl. intros r [<- | [<- | [<- | []]]]; simpl; split; discriminate.
  - apply (proj1 (proj2 (mapscancode_total (keys := sample_input_h) 98))).
    + simpl. intros [H | [H | [H | [H | []]]]]; discriminate.
    + unfold alnum. lia.
  - apply (proj2 (proj2 (mapscancode_total (keys := sample_input_h) 200))).
    + simpl. intros [H | [H | [H | [H | []]]]]; discriminate.
    + unfold alnum. lia.
Defined.

(** ** Event dispatcher *)

Section Dispatcher.

Context {keys : input_h}.

(** The loop takes the pending events one at a time; only [SDL_QUIT] ends
    it early. *)
Lemma ev_poll_cons (event : SDL_Event) (pending : list SDL_Event) (s : state) :
  event <> SDL_QUIT ->
  ev_poll (event :: pending) s = ev_poll pending (ev_poll1 event s).
Proof.
  intros Hq. unfold ev_poll1. simpl.
  destruct (ev_switch event s) eqn:E; [ reflexivity | ].
  destruct event; simpl in E;
    repeat match type of E with
           | context [if ?b then _ else _] => destruct b
           end; try discriminate; congruence.
Qed.

Lemma ev_poll1_joyaxis_x (value : Z) (s : state) :
  ev_poll1 (SDL_JOYAXISMOTION 0 value) s
  = joyaxis_evt JA_X (jaxis_newstate value) s.
Proof. reflexivity. Qed.

Lemma posted_by_joyaxis_x (value : Z) (s : state) :
  posted_by (ev_poll1 (SDL_JOYAXISMOTION 0 value)) s
  = posted_by (joyaxis_evt JA_X (jaxis_newstate value)) s.
Proof. reflexivity. Qed.

Lemma ev_poll1_joyaxis_y (value : Z) (s : state) :
  ev_poll1 (SDL_JOYAXISMOTION 1 value) s
  = joyaxis_evt JA_Y (jaxis_newstate value) s.
Proof. reflexivity. Qed.

(** C5, as amended.  The comparisons with JOY_COMMIT_RANGE are strict: a
    raw value above 3276 gives RIGHT_OR_DOWN, a value below -3276 gives
    LEFT_OR_UP, and every value from -3276 to 3276, both bounds included,
    gives CENTERED; the debouncer of the reported axis is then called with
    that state. *)
Theorem jaxis_newstate_threshold (value : Z) :
  (value > JOY_COMMIT_RANGE -> jaxis_newstate value = JAV_RIGHT_OR_DOWN) /\
  (value < - JOY_COMMIT_RANGE -> jaxis_newstate value = JAV_LEFT_OR_UP) /\
  (- JOY_COMMIT_RANGE <= value <= JOY_COMMIT_RANGE ->
   jaxis_newstate value = JAV_CENTERED) /\
  (forall pending s,
     ev_poll (SDL_JOYAXISMOTION 0 value :: pending) s
     = ev_poll pending (joyaxis_evt JA_X (jaxis_newstate value) s) /\
     ev_poll (SDL_JOYAXISMOTION 1 value :: pending) s
     = ev_poll pending (joyaxis_evt JA_Y (jaxis_newstate value) s)).
Proof.
  split; [ | split; [ | split ] ]; try (intros pending s; split; reflexivity);
    intros H; unfold jaxis_newstate; rewrite Z.gtb_ltb;
    destruct (Z.ltb_spec JOY_COMMIT_RANGE value);
    destruct (Z.ltb_spec value (- JOY_COMMIT_RANGE));
    try reflexivity; unfold JOY_COMMIT_RANGE in *; lia.
Qed.

(** C8.  A joystick button event with an index from 0 to 15 posts one
    event, PRESS for button-down and RELEASE for button-up, with code
    K_JOY0 plus the index, and changes nothing else; with an index above
    15 the poll goes on from the unchanged state. *)
Theorem ev_poll_joybutton
  (button : Z) (pending : list SDL_Event) (s : state) :
  (0 <= button <= 15 ->
   ev_poll (SDL_JOYBUTTONDOWN button :: pending) s
   = ev_poll pending (ev_postevent (mkEvent EV_PRESS (K_JOY0 + button)) s) /\
   ev_poll (SDL_JOYBUTTONUP button :: pending) s
   = ev_poll pending (ev_postevent (mkEvent EV_RELEASE (K_JOY0 + button)) s)) /\
  (15 < button ->
   ev_poll (SDL_JOYBUTTONDOWN button :: pending) s = ev_poll pending s /\
   ev_poll (SDL_JOYBUTTONUP button :: pending) s = ev_poll pending s).
Proof.
  split; intros H; simpl;
    destruct (Z.gtb_spec button 15); try lia; split; reflexivity.
Qed.

Lemma ev_poll1_keydown_posted (sym kmod : Z) (s : state) :
  posted (ev_poll1 (SDL_KEYDOWN sym kmod) s)
  = posted s ++ [mkEvent EV_PRESS (mapscancode sym)].
Proof.
  unfold ev_poll1. simpl. unfold seq, skip.
  destruct ((sym =? SDLK_RETURN) && nonzero (Z.land kmod KMOD_ALT));
    reflexivity.
Qed.

(** C9.  Every key-down event posts one PRESS and every key-up event one
    RELEASE, with the code the key mapper returns, whatever that code is;
    for a symbol that is in no row of the table and is neither a digit nor
    a lowercase letter, the event is posted with code 0. *)
Theorem ev_poll_key_always_posts (sym kmod : Z) (s : state) :
  posted_by (ev_poll1 (SDL_KEYDOWN sym kmod)) s
  = [mkEvent EV_PRESS (mapscancode sym)] /\
  posted_by (ev_poll1 (SDL_KEYUP sym kmod)) s
  = [mkEvent EV_RELEASE (mapscancode sym)] /\
  (~ In sym (map fst keymap) -> ~ alnum sym ->
   posted_by (ev_poll1 (SDL_KEYDOWN sym kmod)) s = [mkEvent EV_PRESS 0] /\
   posted_by (ev_poll1 (SDL_KEYUP sym kmod)) s = [mkEvent EV_RELEASE 0]).
Proof.
  assert (Hd : posted_by (ev_poll1 (SDL_KEYDOWN sym kmod)) s
               = [mkEvent EV_PRESS (mapscancode sym)])
    by apply posted_by_intro, ev_poll1_keydown_posted.
  assert (Hu : posted_by (ev_poll1 (SDL_KEYUP sym kmod)) s
               = [mkEvent EV_RELEASE (mapscancode sym)])
    by (apply posted_by_intro; reflexivity).
  split; [ exact Hd | split; [ exact Hu | ] ].
  intros Hn Ha. rewrite Hd, Hu.
  apply mapscancode_scan_absent, mapscancode_unmapped in Hn.
  now rewrite (proj2 Hn Ha).
Qed.

(** C2, as amended.  The X axis being stored as CENTERED, the readings
    0, 4000, 4000, -4000, 0 post five events: nothing after the first
    reading; RELEASE with code 0 then PRESS(RIGHT) after the second;
    nothing after the third; RELEASE(RIGHT) then PRESS(LEFT) after the
    fourth; RELEASE(LEFT) after the fifth.  The same five events are
    posted, in that order, when one poll finds the five readings queued. *)
Theorem x_readings_scenario (s : state) :
  Xstatus s = JAV_CENTERED ->
  poll_trace (x_readings [0; 4000; 4000; -4000; 0]) s
  = [ [];
      [mkEvent EV_RELEASE 0; mkEvent EV_PRESS K_JOYRIGHT];
      [];
      [mkEvent EV_RELEASE K_JOYRIGHT; mkEvent EV_PRESS K_JOYLEFT];
      [mkEvent EV_RELEASE K_JOYLEFT] ] /\
  exists s',
    ev_poll (x_readings [0; 4000; 4000; -4000; 0]) s = Returned s' /\
    posted s'
    = posted s ++
      [ mkEvent EV_RELEASE 0; mkEvent EV_PRESS K_JOYRIGHT;
        mkEvent EV_RELEASE K_JOYRIGHT; mkEvent EV_PRESS K_JOYLEFT;
        mkEvent EV_RELEASE K_JOYLEFT ].
Proof.
  intros Hc.
  assert (Hx : axis_status JA_X s = JAV_CENTERED) by exact Hc.
  split.
  - cbn [poll_trace x_readings map].
    rewrite !posted_by_joyaxis_x, !ev_poll1_joyaxis_x.
    change (jaxis_newstate 0) with JAV_CENTERED.
    change (jaxis_newstate 4000) with JAV_RIGHT_OR_DOWN.
    change (jaxis_newstate (-4000)) with JAV_LEFT_OR_UP.
    rewrite !joyaxis_evt_posted_by, !joyaxis_evt_status, Hx.
    reflexivity.
  - cbn [x_readings map].
    rewrite !ev_poll_cons by discriminate.
    rewrite !ev_poll1_joyaxis_x.
    change (jaxis_newstate 0) with JAV_CENTERED.
    change (jaxis_newstate 4000) with JAV_RIGHT_OR_DOWN.
    change (jaxis_newstate (-4000)) with JAV_LEFT_OR_UP.
    eexists. split; [ reflexivity | ].
    rewrite !joyaxis_evt_posted, !joyaxis_evt_status, Hx.
    cbn. rewrite <- !app_assoc. reflexivity.
Qed.

(** [use_altenter] is read nowhere: writing it commutes with every step
    of the dispatcher. *)
Lemma joyaxis_evt_use_altenter
  (axis : joyaxis) (nv : joyaxisvalue) (v : Z) (s : state) :
  joyaxis_evt axis nv (set_use_altenter v s)
  = set_use_altenter v (joyaxis_evt axis nv s).
Proof.
  unfold joyaxis_evt, seq, skip. destruct axis; simpl;
    match goal with |- context [jav_eqb ?a ?b] => destruct (jav_eqb a b) end;
    try reflexivity; destruct (negb (jav nv =? 1)); reflexivity.
Qed.

Lemma hat_motion_use_altenter (value v : Z) (s : state) :
  hat_motion value (set_use_altenter v s)
  = set_use_altenter v (hat_motion value s).
Proof.
  unfold hat_motion.
  repeat match goal with
         | |- context [if ?b then _ else _] => destruct b
         end;
    unfold seq, skip; now rewrite ?joyaxis_evt_use_altenter.
Qed.

Lemma ev_switch_use_altenter (event : SDL_Event) (v : Z) (s : state) :
  ev_switch event (set_use_altenter v s)
  = outcome_map (set_use_altenter v) (ev_switch event s).
Proof.
  destruct event; simpl;
    rewrite ?hat_motion_use_altenter, ?joyaxis_evt_use_altenter;
    try reflexivity;
    destruct s;
    cbv [seq skip sdl set_fullscreen set_use_altenter ev_postevent
         set_fb_enabled fullscreen use_altenter outcome_map];
    repeat match goal with
           | |- context [if ?b then _ else _] => destruct b
           end; reflexivity.
Qed.

(** C10.  Two runs of [ev_poll] from states that differ only in
    [use_altenter] end the same way, in states that differ only in
    [use_altenter]: same posted events, same calls into SDL, same statics.
    In particular a key-down of Enter with ALT held asks SDL for the
    opposite fullscreen mode, flips [fullscreen] and posts its PRESS,
    whatever [use_altenter] holds. *)
Theorem ev_poll_ignores_use_altenter
  (pending : list SDL_Event) (v : Z) (s : state) :
  ev_poll pending (set_use_altenter v s)
  = outcome_map (set_use_altenter v) (ev_poll pending s) /\
  (forall kmod : Z,
     Z.land kmod KMOD_ALT <> 0 ->
     ev_poll1 (SDL_KEYDOWN SDLK_RETURN kmod) (set_use_altenter v s)
     = set_use_altenter v
         (ev_postevent (mkEvent EV_PRESS (mapscancode SDLK_RETURN))
            (set_fullscreen (if nonzero (fullscreen s) then 0 else 1)
               (sdl (SDL_SetWindowFullscreen
                       (if nonzero (fullscreen s) then 0
                        else SDL_WINDOW_FULLSCREEN)) s)))).
Proof.
  split.
  - revert s. induction pending as [|event pending IH]; intros s; simpl.
    + reflexivity.
    + rewrite ev_switch_use_altenter.
      destruct (ev_switch event s); simpl; [ apply IH | reflexivity ].
  - intros kmod Hk. unfold ev_poll1. simpl. unfold nonzero at 1.
    destruct (Z.eqb_spec (Z.land kmod KMOD_ALT) 0); [ contradiction | ].
    reflexivity.
Qed.

End Dispatcher.

(** C2, the claim as it is written fails: from the state [vid_init]
    leaves, the five readings post five events, not four; the second
    reading posts a RELEASE with code 0 before PRESS(RIGHT). *)
Lemma x_readings_post_five_events :
  poll_trace (keys := sample_input_h)
    (x_readings [0; 4000; 4000; -4000; 0]) (vid_init startup)
  = [ [];
      [mkEvent EV_RELEASE 0; mkEvent EV_PRESS 451];
      [];
      [mkEvent EV_RELEASE 451; mkEvent EV_PRESS 450];
      [mkEvent EV_RELEASE 450] ] /\
  length (concat (poll_trace (keys := sample_input_h)
                    (x_readings [0; 4000; 4000; -4000; 0])
                    (vid_init startup))) = 5%nat /\
  length (posted (state_of (ev_poll (keys := sample_input_h)
                              (x_readings [0; 4000; 4000; -4000; 0])
                              (vid_init startup)))) <> 4%nat.
Proof. split; [ reflexivity | split; [ reflexivity | discriminate ] ]. Qed.

Lemma x_readings_scenario_witness :
  poll_trace (keys := sample_input_h)
    (x_readings [0; 4000; 4000; -4000; 0]) (vid_init startup)
  = [ [];
      [mkEvent EV_RELEASE 0; mkEvent EV_PRESS 451];
      [];
      [mkEvent EV_RELEASE 451; mkEvent EV_PRESS 450];
      [mkEvent EV_RELEASE 450] ].
Proof.
  apply (x_readings_scenario (keys := sample_input_h) (vid_init startup)).
  reflexivity.
Defined.

(** C5, the claim as it is written fails: the threshold value itself, on
    either side, still quantizes to CENTERED, and a reading of 3276 on a
    centered X axis posts nothing. *)
Lemma jaxis_newstate_at_threshold :
  jaxis_newstate JOY_COMMIT_RANGE = JAV_CENTERED /\
  jaxis_newstate JOY_COMMIT_RANGE <> JAV_RIGHT_OR_DOWN /\
  jaxis_newstate (- JOY_COMMIT_RANGE) = JAV_CENTERED /\
  jaxis_newstate (- JOY_COMMIT_RANGE) <> JAV_LEFT_OR_UP /\
  ev_poll (keys := sample_input_h) [SDL_JOYAXISMOTION 0 3276]
    (vid_init startup) = Returned (vid_init startup).
Proof. repeat split; discriminate. Qed.

Lemma jaxis_newstate_threshold_witness :
  jaxis_newstate 3277 = JAV_RIGHT_OR_DOWN /\
  jaxis_newstate (-3277) = JAV_LEFT_OR_UP /\
  jaxis_newstate 3276 = JAV_CENTERED /\
  jaxis_newstate 3275 = JAV_CENTERED /\
  jaxis_newstate (-3276) = JAV_CENTERED /\
  jaxis_newstate (-3275) = JAV_CENTERED.
Proof.
  split; [ | split; [ | split; [ | split; [ | split ] ] ] ].
  - apply (proj1 (jaxis_newstate_threshold (keys := sample_input_h) 3277)).
    unfold JOY_COMMIT_RANGE. lia.
  - apply (proj1 (proj2 (jaxis_newstate_threshold (keys := sample_input_h)
                           (-3277)))).
    unfold JOY_COMMIT_RANGE. lia.
  - apply (proj1 (proj2 (proj2 (jaxis_newstate_threshold
                                  (keys := sample_input_h) 3276)))).
    unfold JOY_COMMIT_RANGE. lia.
  - apply (proj1 (proj2 (proj2 (jaxis_newstate_threshold
                                  (keys := sample_input_h) 3275)))).
    unfold JOY_COMMIT_RANGE. lia.
  - apply (proj1 (proj2 (proj2 (jaxis_newstate_threshold
                                  (keys := sample_input_h) (-3276))))).
    unfold JOY_COMMIT_RANGE. lia.
  - apply (proj1 (proj2 (proj2 (jaxis_newstate_threshold
                                  (keys := sample_input_h) (-3275))))).
    unfold JOY_COMMIT_RANGE. lia.
Defined.

Lemma ev_poll_joybutton_witness :
  (ev_poll (keys := sample_input_h) [SDL_JOYBUTTONDOWN 3] (vid_init startup)
   = Returned (ev_postevent (mkEvent EV_PRESS 435) (vid_init startup)) /\
   ev_poll (keys := sample_input_h) [SDL_JOYBUTTONUP 3] (vid_init startup)
   = Returned (ev_postevent (mkEvent EV_RELEASE 435) (vid_init startup))) /\
  (ev_poll (keys := sample_input_h) [SDL_JOYBUTTONDOWN 16] (vid_init startup)
   = Returned (vid_init startup) /\
   ev_poll (keys := sample_input_h) [SDL_JOYBUTTONUP 16] (vid_init startup)
   = Returned (vid_init startup)).
Proof.
  split.
  - apply (proj1 (ev_poll_joybutton (keys := sample_input_h) 3 []
                    (vid_init startup))). lia.
  - apply (proj2 (ev_poll_joybutton (keys := sample_input_h) 16 []
                    (vid_init startup))). lia.
Defined.

Lemma ev_poll_key_always_posts_witness :
  posted_by (ev_poll1 (keys := sample_input_h) (SDL_KEYDOWN 200 0))
            (vid_init startup) = [mkEvent EV_PRESS 0] /\
  posted_by (ev_poll1 (keys := sample_input_h) (SDL_KEYUP 200 0))
            (vid_init startup) = [mkEvent EV_RELEASE 0].
Proof.
  apply (proj2 (proj2 (ev_poll_key_always_posts (keys := sample_input_h)
                         200 0 (vid_init startup)))).
  - simpl. intros [H | [H | [H | [H | []]]]]; discriminate.
  - unfold alnum. lia.
Defined.

Lemma ev_poll_ignores_use_altenter_witness :
  ev_poll1 (keys := sample_input_h) (SDL_KEYDOWN SDLK_RETURN 256)
    (set_use_altenter 0 (vid_init startup))
  = set_use_altenter 0
      (ev_postevent (mkEvent EV_PRESS 13)
         (set_fullscreen 1
            (sdl (SDL_SetWindowFullscreen SDL_WINDOW_FULLSCREEN)
               (vid_init startup)))).
Proof.
  apply (proj2 (ev_poll_ignores_use_altenter (keys := sample_input_h)
                  [] 0 (vid_init startup)) 256).
  discriminate.
Defined.

(** ** Frame presentation *)

Lemma vid_begin_keeps (s : state) :
  screen (vid_begin s) = screen s /\
  fb_enabled (vid_begin s) = fb_enabled s.
Proof. split; reflexivity. Qed.

Lemma vid_end_enabled (s : state) :
  fb_enabled s <> 0 ->
  screen (vid_end s) = 1%nat /\ fb_enabled (vid_end s) = fb_enabled s.
Proof.
  intros H. unfold vid_end, seq. simpl. unfold nonzero.
  destruct (Z.eqb_spec (fb_enabled s) 0); [ contradiction | ]. simpl.
  destruct (screen s =? 0)%nat; split; reflexivity.
Qed.

(** With presentation enabled, [screen] is screens[1] after the first
    completed frame and stays there. *)
Lemma frames_screen (n : nat) (s : state) :
  fb_enabled s <> 0 ->
  screen (frames (S n) s) = 1%nat /\
  fb_enabled (frames (S n) s) = fb_enabled s.
Proof.
  revert s. induction n as [|n IH]; intros s H.
  - change (frames 1 s) with (vid_end (vid_begin s)).
    destruct (vid_end_enabled (vid_begin s)) as [H1 H2]; [ exact H | ].
    split; [ exact H1 | exact H2 ].
  - change (frames (S (S n)) s) with (frames (S n) (frame s)).
    assert (Hf : fb_enabled (frame s) = fb_enabled s).
    { destruct (vid_end_enabled (vid_begin s)) as [_ H2]; [ exact H | ].
      exact H2. }
    destruct (IH (frame s)) as [H1 H2]; [ now rewrite Hf | ].
    split; [ exact H1 | now rewrite H2 ].
Qed.

(** C3, the code at two frames.  After [vid_init] the front surface is
    screens[0] and presentation is enabled; after one begin/end cycle it
    is screens[1]; after two cycles it is still screens[1], where
    alternation would give screens[0] again. *)
Theorem frames_two_front_surface :
  screen (vid_init startup) = 0%nat /\
  fb_enabled (vid_init startup) = 1 /\
  fb_enabled (frames 1 (vid_init startup)) = 1 /\
  fb_enabled (frames 2 (vid_init startup)) = 1 /\
  screen (frames 1 (vid_init startup)) = 1%nat /\
  screen (frames 2 (vid_init startup)) = 1%nat /\
  screen (frames 2 (vid_init startup))
  <> ((screen (vid_init startup) + 2) mod 2)%nat.
Proof. repeat split; discriminate. Qed.

(** C4, as amended.  With [fb.enabled] zero, [vid_end] unlocks the
    surface and does nothing else: no texture upload, no renderer clear or
    copy, no present, and no change of the front surface; every static is
    left as it was. *)
Theorem vid_end_disabled (s : state) :
  fb_enabled s = 0 ->
  vid_end s = sdl (SDL_UnlockSurface (screen s)) s /\
  host_by vid_end s = [SDL_UnlockSurface (screen s)] /\
  screen (vid_end s) = screen s.
Proof.
  intros H.
  assert (E : vid_end s = sdl (SDL_UnlockSurface (screen s)) s).
  { unfold vid_end, seq. simpl. rewrite H. reflexivity. }
  split; [ exact E | split ].
  - apply host_by_intro. rewrite E. reflexivity.
  - rewrite E. reflexivity.
Qed.

(** C4, the claim as it is written fails: in a frame opened while the
    window is hidden, [vid_end] leaves screens[0] in front, where the
    same call with presentation enabled moves the front to screens[1]. *)
Lemma vid_end_disabled_keeps_front :
  fb_enabled hidden_frame = 0 /\
  screen hidden_frame = 0%nat /\
  screen (vid_end hidden_frame) = 0%nat /\
  screen (vid_end (set_fb_enabled 1 hidden_frame)) = 1%nat /\
  screen (vid_end hidden_frame)
  <> screen (vid_end (set_fb_enabled 1 hidden_frame)).
Proof. repeat split; discriminate. Qed.

Lemma vid_end_disabled_witness :
  vid_end hidden_frame = sdl (SDL_UnlockSurface 0) hidden_frame /\
  host_by vid_end hidden_frame = [SDL_UnlockSurface 0%nat] /\
  screen (vid_end hidden_frame) = 0%nat.
Proof.
  apply (vid_end_disabled hidden_frame). reflexivity.
Defined.

(** * Further properties of the backend *)

(** ** Press/release pairing of the debouncer *)

Lemma count_ev_app (t : ev_type) (c : Z) (l k : list event_t) :
  count_ev t c (l ++ k) = count_ev t c l + count_ev t c k.
Proof.
  unfold count_ev. rewrite filter_app, length_app. lia.
Qed.

Lemma jav_eqb_cases (a b : joyaxisvalue) :
  jav_eqb a b
  = match a, b with
    | JAV_LEFT_OR_UP, JAV_LEFT_OR_UP
    | JAV_CENTERED, JAV_CENTERED
    | JAV_RIGHT_OR_DOWN, JAV_RIGHT_OR_DOWN => true
    | _, _ => false
    end.
Proof. destruct a, b; reflexivity. Qed.

Lemma not_centered_cases (v : joyaxisvalue) :
  negb (jav v =? 1)
  = match v with
    | JAV_CENTERED => false
    | _ => true
    end.
Proof. destruct v; reflexivity. Qed.

Section Pairing.

Context {keys : input_h}.

Lemma joyaxis_evt_status_other
  (axis a' : joyaxis) (v' : joyaxisvalue) (s : state) :
  axis <> a' ->
  axis_status axis (joyaxis_evt a' v' s) = axis_status axis s.
Proof.
  intros Hne. unfold joyaxis_evt, seq, skip.
  destruct (jav_eqb (axis_status a' s) v'); [ reflexivity | ].
  destruct axis, a', v'; try congruence; reflexivity.
Qed.

Lemma action_eq (axis : joyaxis) (v : joyaxisvalue) :
  action axis v
  = match axis, v with
    | JA_X, JAV_LEFT_OR_UP => K_JOYLEFT
    | JA_X, JAV_RIGHT_OR_DOWN => K_JOYRIGHT
    | JA_Y, JAV_LEFT_OR_UP => K_JOYUP
    | JA_Y, JAV_RIGHT_OR_DOWN => K_JOYDOWN
    | _, JAV_CENTERED => 0
    end.
Proof. destruct axis, v; reflexivity. Qed.

Ltac decide_codes :=
  repeat match goal with
         | |- context [?a =? ?b] => destruct (Z.eqb_spec a b)
         end;
  simpl; try reflexivity; try congruence; try lia.

Lemma joyaxis_evt_balance
  (axis a' : joyaxis) (v v' : joyaxisvalue) (s : state) :
  directional_codes_distinct -> v <> JAV_CENTERED ->
  balance axis v (joyaxis_evt a' v' s) = balance axis v s.
Proof.
  intros (L0 & R0 & U0 & D0 & LR & LU & LD & RU & RD & UD) Hv.
  unfold balance. rewrite joyaxis_evt_posted, !count_ev_app.
  generalize (count_ev EV_PRESS (action axis v) (posted s)).
  generalize (count_ev EV_RELEASE (action axis v) (posted s)).
  intros r p. rewrite !action_eq, not_centered_cases. unfold holds.
  destruct axis, a';
    rewrite ?joyaxis_evt_status, ?joyaxis_evt_status_other by discriminate;
    simpl axis_status; rewrite !jav_eqb_cases;
    generalize (Xstatus s) (Ystatus s); intros x y;
    destruct v; try congruence;
    destruct x, y, v'; cbn -[Z.eqb]; unfold count_ev; cbn -[Z.eqb];
    decide_codes.
Qed.

(** X1.  Press/release pairing of the debouncer: with the four
    directional codes non-zero and pairwise distinct, no run of updates
    changes, for a directional key, the number of its PRESS events minus
    the number of its RELEASE events minus 1 if the register holds its
    direction.  So the events posted say a key is down exactly when the
    register holds its direction. *)
Theorem joyaxis_evts_pairing
  (updates : list (joyaxis * joyaxisvalue))
  (axis : joyaxis) (v : joyaxisvalue) (s : state) :
  directional_codes_distinct -> v <> JAV_CENTERED ->
  balance axis v (joyaxis_evts updates s) = balance axis v s.
Proof.
  intros Hd Hv. revert s.
  induction updates as [|[a' v'] updates IH]; intros s; simpl.
  - reflexivity.
  - unfold seq. rewrite IH. now apply joyaxis_evt_balance.
Qed.

End Pairing.

Lemma sample_codes_distinct :
  directional_codes_distinct (keys := sample_input_h).
Proof. repeat split; discriminate. Defined.

Lemma joyaxis_evts_pairing_witness :
  balance (keys := sample_input_h) JA_X JAV_RIGHT_OR_DOWN
    (joyaxis_evts (keys := sample_input_h)
       [ (JA_X, JAV_RIGHT_OR_DOWN); (JA_Y, JAV_LEFT_OR_UP);
         (JA_X, JAV_LEFT_OR_UP) ] (vid_init startup))
  = balance (keys := sample_input_h) JA_X JAV_RIGHT_OR_DOWN (vid_init startup).
Proof.
  apply (joyaxis_evts_pairing (keys := sample_input_h)).
  - exact sample_codes_distinct.
  - discriminate.
Defined.

(** ** Hat positions *)

Section Hat.

Context {keys : input_h}.

Lemma Xstatus_joyaxis_evt (a : joyaxis) (v : joyaxisvalue) (s : state) :
  Xstatus (joyaxis_evt a v s)
  = match a with JA_X => v | JA_Y => Xstatus s end.
Proof.
  destruct a.
  - exact (joyaxis_evt_status JA_X v s).
  - apply (joyaxis_evt_status_other JA_X JA_Y). discriminate.
Qed.

Lemma Ystatus_joyaxis_evt (a : joyaxis) (v : joyaxisvalue) (s : state) :
  Ystatus (joyaxis_evt a v s)
  = match a with JA_X => Ystatus s | JA_Y => v end.
Proof.
  destruct a.
  - apply (joyaxis_evt_status_other JA_Y JA_X). discriminate.
  - exact (joyaxis_evt_status JA_Y v s).
Qed.

(** X3.  For each of the nine hat positions, the registers after the
    hat-motion case are the directions the position shows as a bit mask:
    LEFT or RIGHT set the X register, UP or DOWN the Y register, the
    centre sets both to CENTERED.  A purely vertical position leaves the
    X register as it was, and a purely horizontal one the Y register. *)
Theorem hat_motion_registers (value : Z) (s : state) :
  In value hat_positions ->
  Xstatus (hat_motion value s) = hat_x value (Xstatus s) /\
  Ystatus (hat_motion value s) = hat_y value (Ystatus s).
Proof.
  unfold hat_positions. simpl.
  intros [<- | [<- | [<- | [<- | [<- | [<- | [<- | [<- | [<- | []]]]]]]]]];
    unfold hat_motion, seq, skip; simpl;
    rewrite ?Xstatus_joyaxis_evt, ?Ystatus_joyaxis_evt;
    split; reflexivity.
Qed.

(** X5.  A hat value that is none of the nine positions is ignored: the
    state is left as it was. *)
Theorem hat_motion_unknown (value : Z) (s : state) :
  ~ In value hat_positions -> hat_motion value s = s.
Proof.
  unfold hat_positions. simpl. intros Hn. unfold hat_motion.
  repeat match goal with
         | |- context [value =? ?c] =>
             destruct (Z.eqb_spec value c);
             [ exfalso; apply Hn; subst value; auto 12 | ]
         end.
  reflexivity.
Qed.

(** X4.  Centring the hat posts the RELEASE of each directional key the
    registers hold, X before Y, posts no PRESS, and leaves both registers
    CENTERED. *)
Theorem hat_motion_centered (s : state) :
  posted (hat_motion SDL_HAT_CENTERED s)
  = posted s ++ release_held JA_X s ++ release_held JA_Y s /\
  Xstatus (hat_motion SDL_HAT_CENTERED s) = JAV_CENTERED /\
  Ystatus (hat_motion SDL_HAT_CENTERED s) = JAV_CENTERED.
Proof.
  change (hat_motion SDL_HAT_CENTERED s)
    with (joyaxis_evt JA_Y JAV_CENTERED (joyaxis_evt JA_X JAV_CENTERED s)).
  rewrite !Xstatus_joyaxis_evt, !Ystatus_joyaxis_evt.
  split; [ | split; reflexivity ].
  rewrite !joyaxis_evt_posted. unfold release_held.
  rewrite (joyaxis_evt_status_other JA_Y JA_X) by discriminate.
  rewrite <- app_assoc. reflexivity.
Qed.

End Hat.

Lemma hat_motion_registers_witness :
  Xstatus (hat_motion (keys := sample_input_h) SDL_HAT_UP
             (hat_motion (keys := sample_input_h) SDL_HAT_RIGHTUP
                (vid_init startup)))
  = JAV_RIGHT_OR_DOWN /\
  Ystatus (hat_motion (keys := sample_input_h) SDL_HAT_UP
             (hat_motion (keys := sample_input_h) SDL_HAT_RIGHTUP
                (vid_init startup)))
  = JAV_LEFT_OR_UP.
Proof.
  apply (hat_motion_registers (keys := sample_input_h) SDL_HAT_UP
           (hat_motion (keys := sample_input_h) SDL_HAT_RIGHTUP
              (vid_init startup))).
  simpl. tauto.
Defined.

Lemma hat_motion_unknown_witness :
  hat_motion (keys := sample_input_h) 5 (vid_init startup) = vid_init startup.
Proof.
  apply (hat_motion_unknown (keys := sample_input_h) 5 (vid_init startup)).
  simpl. intros H.
  repeat (destruct H as [H | H]; [ discriminate H | ]). exact H.
Defined.

(** ** The poll loop *)

Lemma posts_at_most_refl (s : state) : posts_at_most 0 s s.
Proof. exists []. split; [ now rewrite app_nil_r | auto ]. Qed.

Lemma posts_at_most_trans (n m : nat) (s s' s'' : state) :
  posts_at_most n s s' -> posts_at_most m s' s'' ->
  posts_at_most (n + m) s s''.
Proof.
  intros (l & Hl & Ln) (k & Hk & Lk). exists (l ++ k). split.
  - now rewrite Hk, Hl, app_assoc.
  - rewrite length_app. lia.
Qed.

Lemma posts_at_most_le (n m : nat) (s s' : state) :
  (n <= m)%nat -> posts_at_most n s s' -> posts_at_most m s s'.
Proof. intros Hle (l & Hl & Ln). exists l. split; [ exact Hl | lia ]. Qed.

Lemma posts_at_most_postevent (ev : event_t) (s : state) :
  posts_at_most 1 s (ev_postevent ev s).
Proof. exists [ev]. split; [ reflexivity | auto ]. Qed.

Lemma frame_untouched_refl (s : state) : frame_untouched s s.
Proof.
  repeat split. exists []. split; [ now rewrite app_nil_r | constructor ].
Qed.

Lemma frame_untouched_trans (s s' s'' : state) :
  frame_untouched s s' -> frame_untouched s' s'' -> frame_untouched s s''.
Proof.
  intros (A1 & A2 & A3 & l & Hl & Fl) (B1 & B2 & B3 & k & Hk & Fk).
  repeat split; try congruence.
  exists (l ++ k). split.
  - now rewrite Hk, Hl, app_assoc.
  - apply Forall_app. now split.
Qed.

Section Poll.

Context {keys : input_h}.

Lemma ev_switch_returns (event : SDL_Event) (s : state) :
  event <> SDL_QUIT -> ev_switch event s = Returned (ev_poll1 event s).
Proof.
  intros Hq. generalize (ev_poll_cons event [] s Hq). unfold ev_poll1. simpl.
  destruct (ev_switch event s); simpl; congruence.
Qed.

Lemma ev_poll_app (p1 p2 : list SDL_Event) (s : state) :
  ~ In SDL_QUIT p1 ->
  ev_poll p1 s = Returned (state_of (ev_poll p1 s)) /\
  ev_poll (p1 ++ p2) s = ev_poll p2 (state_of (ev_poll p1 s)).
Proof.
  revert s. induction p1 as [|event p1 IH]; intros s Hn.
  - split; reflexivity.
  - assert (Hq : event <> SDL_QUIT) by (intros ->; apply Hn; now left).
    assert (Hn' : ~ In SDL_QUIT p1) by (intros H; apply Hn; now right).
    simpl. rewrite (ev_switch_returns event s Hq). now apply IH.
Qed.

(** X6.  SDL_QUIT ends the poll in [exit(1)]: the events polled before it
    have been handled, in order, and nothing queued behind it is looked
    at. *)
Theorem ev_poll_quit (before behind : list SDL_Event) (s : state) :
  ~ In SDL_QUIT before ->
  ev_poll (before ++ SDL_QUIT :: behind) s
  = Exited 1 (state_of (ev_poll before s)).
Proof.
  intros Hn. now rewrite (proj2 (ev_poll_app before (SDL_QUIT :: behind) s Hn)).
Qed.

(** X7.  With no SDL_QUIT among them, the pending events are all handled
    and the poll returns; handling a queue in one poll or in two
    successive polls gives the same result. *)
Theorem ev_poll_split (p1 p2 : list SDL_Event) (s : state) :
  ~ In SDL_QUIT (p1 ++ p2) ->
  exists s1 s2,
    ev_poll p1 s = Returned s1 /\
    ev_poll p2 s1 = Returned s2 /\
    ev_poll (p1 ++ p2) s = Returned s2.
Proof.
  intros Hn.
  assert (H1 : ~ In SDL_QUIT p1)
    by (intros H; apply Hn, in_or_app; now left).
  assert (H2 : ~ In SDL_QUIT p2)
    by (intros H; apply Hn, in_or_app; now right).
  destruct (ev_poll_app p1 p2 s H1) as [E1 E12].
  destruct (ev_poll_app p2 [] (state_of (ev_poll p1 s)) H2) as [E2 _].
  eexists. eexists. split; [ exact E1 | split; [ exact E2 | ] ].
  now rewrite E12.
Qed.

Lemma joyaxis_evt_posts (a : joyaxis) (v : joyaxisvalue) (s : state) :
  posts_at_most 2 s (joyaxis_evt a v s).
Proof.
  eexists. split; [ apply joyaxis_evt_posted | ].
  destruct (jav_eqb (axis_status a s) v); simpl; [ lia | ].
  destruct (negb (jav v =? 1)); simpl; lia.
Qed.

Lemma hat_motion_posts (value : Z) (s : state) :
  posts_at_most 4 s (hat_motion value s).
Proof.
  unfold hat_motion.
  repeat match goal with
         | |- context [if ?b then _ else _] => destruct b
         end;
    unfold seq, skip;
    first
      [ eapply (posts_at_most_trans 2 2); apply joyaxis_evt_posts
      | apply (posts_at_most_le 2 4); [ lia | apply joyaxis_evt_posts ]
      | apply (posts_at_most_le 0 4); [ lia | apply posts_at_most_refl ] ].
Qed.

Lemma ev_poll1_posts (event : SDL_Event) (s : state) :
  posts_at_most 4 s (ev_poll1 event s).
Proof.
  destruct event; unfold ev_poll1; simpl;
    try apply hat_motion_posts;
    unfold seq, skip;
    repeat match goal with
           | |- context [if ?b then _ else _] => destruct b
           end; simpl;
    first
      [ apply (posts_at_most_le 2 4); [ lia | apply joyaxis_evt_posts ]
      | apply (posts_at_most_le 1 4); [ lia | ];
        eexists; split; [ reflexivity | simpl; lia ]
      | apply (posts_at_most_le 0 4); [ lia | ];
        eexists; split; [ symmetry; apply app_nil_r | simpl; lia ] ].
Qed.

(** X8.  A poll only appends to the trace of posted events, and it posts
    at most four events for each pending host event. *)
Theorem ev_poll_posts (pending : list SDL_Event) (s : state) :
  posts_at_most (4 * length pending) s (state_of (ev_poll pending s)).
Proof.
  revert s. induction pending as [|event pending IH]; intros s.
  - apply posts_at_most_refl.
  - destruct event;
      try (rewrite ev_poll_cons by discriminate;
           apply (posts_at_most_le (4 + 4 * length pending));
           [ simpl length; lia
           | eapply posts_at_most_trans; [ apply ev_poll1_posts | apply IH ] ]).
    simpl. apply (posts_at_most_le 0); [ lia | apply posts_at_most_refl ].
Qed.

End Poll.

Lemma ev_poll_quit_witness :
  ev_poll (keys := sample_input_h)
    ([SDL_JOYBUTTONDOWN 0] ++ SDL_QUIT :: [SDL_JOYBUTTONDOWN 1])
    (vid_init startup)
  = Exited 1 (ev_postevent (mkEvent EV_PRESS 432) (vid_init startup)).
Proof.
  apply (ev_poll_quit (keys := sample_input_h) [SDL_JOYBUTTONDOWN 0]
           [SDL_JOYBUTTONDOWN 1] (vid_init startup)).
  simpl. intros [H | []]. discriminate H.
Defined.

Lemma ev_poll_split_witness :
  exists s1 s2,
    ev_poll (keys := sample_input_h) [SDL_KEYDOWN 97 0] (vid_init startup)
    = Returned s1 /\
    ev_poll (keys := sample_input_h) [SDL_KEYUP 97 0] s1 = Returned s2 /\
    ev_poll (keys := sample_input_h) ([SDL_KEYDOWN 97 0] ++ [SDL_KEYUP 97 0])
      (vid_init startup) = Returned s2.
Proof.
  apply (ev_poll_split (keys := sample_input_h) [SDL_KEYDOWN 97 0]
           [SDL_KEYUP 97 0] (vid_init startup)).
  simpl. intros [H | [H | []]]; discriminate H.
Defined.

(** ** Joystick motion through the poll loop *)

Section Motion.

Context {keys : input_h}.

Lemma hat_motion_balance
  (value : Z) (axis : joyaxis) (v : joyaxisvalue) (s : state) :
  directional_codes_distinct -> v <> JAV_CENTERED ->
  balance axis v (hat_motion value s) = balance axis v s.
Proof.
  intros Hd Hv. unfold hat_motion.
  repeat match goal with
         | |- context [if ?b then _ else _] => destruct b
         end;
    unfold seq, skip; now rewrite ?joyaxis_evt_balance.
Qed.

Lemma ev_poll1_motion_balance
  (event : SDL_Event) (axis : joyaxis) (v : joyaxisvalue) (s : state) :
  directional_codes_distinct -> v <> JAV_CENTERED -> joy_motion event ->
  balance axis v (ev_poll1 event s) = balance axis v s.
Proof.
  intros Hd Hv Hm. destruct event; simpl in Hm; try contradiction.
  - now apply hat_motion_balance.
  - unfold ev_poll1. cbn [ev_poll ev_switch].
    destruct (jaxis_axis =? 0); [ now apply joyaxis_evt_balance | ].
    destruct (jaxis_axis =? 1); [ now apply joyaxis_evt_balance | ].
    reflexivity.
Qed.

(** X2.  Pairing through the poll loop: a poll that finds only hat and
    axis motion events returns, and keeps for every directional key the
    number of its PRESS events minus the number of its RELEASE events
    minus 1 if the register holds its direction.  Started with nothing
    posted and the register CENTERED, the presses of a key then exceed its
    releases by one when the register holds its direction, and equal them
    otherwise. *)
Theorem ev_poll_motion_pairing
  (pending : list SDL_Event) (axis : joyaxis) (v : joyaxisvalue) (s : state) :
  directional_codes_distinct -> v <> JAV_CENTERED ->
  Forall joy_motion pending ->
  exists s',
    ev_poll pending s = Returned s' /\
    balance axis v s' = balance axis v s /\
    (posted s = [] -> axis_status axis s = JAV_CENTERED ->
     count_ev EV_PRESS (action axis v) (posted s')
     - count_ev EV_RELEASE (action axis v) (posted s')
     = holds axis v s').
Proof.
  intros Hd Hv Hm.
  assert (H : exists s', ev_poll pending s = Returned s' /\
                         balance axis v s' = balance axis v s).
  { revert s. induction Hm as [|event pending He Hm IH]; intros s.
    - exists s. split; reflexivity.
    - assert (Hq : event <> SDL_QUIT) by (intros ->; exact He).
      rewrite (ev_poll_cons event pending s Hq).
      destruct (IH (ev_poll1 event s)) as (s' & E & B).
      exists s'. split; [ exact E | ].
      rewrite B. now apply ev_poll1_motion_balance. }
  destruct H as (s' & E & B). exists s'. split; [ exact E | split; [ exact B | ] ].
  intros Hp Hc. unfold balance in B. rewrite Hp in B. unfold holds in B at 2.
  rewrite Hc in B. destruct v; try congruence; cbn in B; lia.
Qed.

End Motion.

Lemma ev_poll_motion_pairing_witness :
  exists s',
    ev_poll (keys := sample_input_h)
      [SDL_JOYHATMOTION SDL_HAT_RIGHTUP; SDL_JOYAXISMOTION 0 (-20000)]
      (vid_init startup) = Returned s' /\
    balance (keys := sample_input_h) JA_X JAV_LEFT_OR_UP s'
    = balance (keys := sample_input_h) JA_X JAV_LEFT_OR_UP (vid_init startup) /\
    (posted (vid_init startup) = [] ->
     axis_status JA_X (vid_init startup) = JAV_CENTERED ->
     count_ev EV_PRESS 450 (posted s') - count_ev EV_RELEASE 450 (posted s')
     = holds JA_X JAV_LEFT_OR_UP s').
Proof.
  apply (ev_poll_motion_pairing (keys := sample_input_h)
           [SDL_JOYHATMOTION SDL_HAT_RIGHTUP; SDL_JOYAXISMOTION 0 (-20000)]
           JA_X JAV_LEFT_OR_UP (vid_init startup)).
  - exact sample_codes_distinct.
  - discriminate.
  - repeat constructor.
Defined.

(** ** What a poll leaves alone *)

Lemma frame_untouched_same (s s' : state) :
  screen s' = screen s -> fb_ptr s' = fb_ptr s -> fb_dirty s' = fb_dirty s ->
  host s' = host s -> frame_untouched s s'.
Proof.
  intros A B C D. repeat split; try assumption.
  exists []. split; [ now rewrite app_nil_r | constructor ].
Qed.

Section Untouched.

Context {keys : input_h}.

Lemma joyaxis_evt_untouched (a : joyaxis) (v : joyaxisvalue) (s : state) :
  frame_untouched s (joyaxis_evt a v s).
Proof.
  unfold joyaxis_evt, seq, skip.
  destruct (jav_eqb (axis_status a s) v); [ apply frame_untouched_refl | ].
  destruct a, (negb (jav v =? 1)); apply frame_untouched_same; reflexivity.
Qed.

Lemma hat_motion_untouched (value : Z) (s : state) :
  frame_untouched s (hat_motion value s).
Proof.
  unfold hat_motion.
  repeat match goal with
         | |- context [if ?b then _ else _] => destruct b
         end;
    unfold seq, skip;
    first
      [ apply joyaxis_evt_untouched
      | apply frame_untouched_refl
      | eapply frame_untouched_trans; apply joyaxis_evt_untouched ].
Qed.

Lemma ev_poll1_untouched (event : SDL_Event) (s : state) :
  frame_untouched s (ev_poll1 event s).
Proof.
  destruct event; unfold ev_poll1; cbn [ev_poll ev_switch state_of].
  - repeat match goal with
           | |- context [if ?b then _ else _] => destruct b
           end; apply frame_untouched_same; reflexivity.
  - unfold seq, skip.
    destruct ((sym =? SDLK_RETURN) && nonzero (Z.land kmod KMOD_ALT)).
    + repeat split. eexists. split; [ reflexivity | ].
      repeat constructor.
    + apply frame_untouched_same; reflexivity.
  - apply frame_untouched_same; reflexivity.
  - apply hat_motion_untouched.
  - destruct (jaxis_axis =? 0); [ apply joyaxis_evt_untouched | ].
    destruct (jaxis_axis =? 1); [ apply joyaxis_evt_untouched | ].
    apply frame_untouched_refl.
  - destruct (button >? 15); apply frame_untouched_same; reflexivity.
  - destruct (button >? 15); apply frame_untouched_same; reflexivity.
  - apply frame_untouched_refl.
  - apply frame_untouched_refl.
Qed.

(** X9.  A poll never writes [screen], [fb.ptr] or [fb.dirty], and the
    only call it makes into SDL is SDL_SetWindowFullscreen: it neither
    locks nor unlocks a surface and never touches the renderer. *)
Theorem ev_poll_untouched (pending : list SDL_Event) (s : state) :
  frame_untouched s (state_of (ev_poll pending s)).
Proof.
  revert s. induction pending as [|event pending IH]; intros s.
  - apply frame_untouched_refl.
  - destruct event;
      try (rewrite ev_poll_cons by discriminate;
           eapply frame_untouched_trans;
           [ apply ev_poll1_untouched | apply IH ]).
    apply frame_untouched_refl.
Qed.

(** X10.  Enter pressed with ALT held: the mode asked of SDL is the one
    [fullscreen] is set to (windowed for 0, SDL_WINDOW_FULLSCREEN for 1),
    [fullscreen] becomes 0 or 1, and a second such key press undoes the
    first: it restores [fullscreen] when that was 0 or 1. *)
Theorem alt_enter_toggles (kmod : Z) (s : state) :
  Z.land kmod KMOD_ALT <> 0 ->
  let press := ev_poll1 (SDL_KEYDOWN SDLK_RETURN kmod) in
  fullscreen (press s) = (if nonzero (fullscreen s) then 0 else 1) /\
  host_by press s
  = [SDL_SetWindowFullscreen (fullscreen (press s) * SDL_WINDOW_FULLSCREEN)] /\
  fullscreen (press (press s)) = (if nonzero (fullscreen s) then 1 else 0) /\
  (fullscreen s = 0 \/ fullscreen s = 1 ->
   fullscreen (press (press s)) = fullscreen s).
Proof.
  intros Hk press.
  assert (E : forall t,
             press t
             = ev_postevent (mkEvent EV_PRESS (mapscancode SDLK_RETURN))
                 (set_fullscreen (if nonzero (fullscreen t) then 0 else 1)
                    (sdl (SDL_SetWindowFullscreen
                            (if nonzero (fullscreen t) then 0
                             else SDL_WINDOW_FULLSCREEN)) t))).
  { intros t. unfold press, ev_poll1. cbn [ev_poll ev_switch state_of].
    unfold nonzero at 1.
    destruct (Z.eqb_spec (Z.land kmod KMOD_ALT) 0); [ contradiction | ].
    reflexivity. }
  split; [ | split; [ | split ] ].
  - rewrite E. reflexivity.
  - apply host_by_intro. rewrite E. cbn.
    destruct (nonzero (fullscreen s)); reflexivity.
  - rewrite (E (press s)), E. cbn.
    destruct (nonzero (fullscreen s)); reflexivity.
  - intros H. rewrite (E (press s)), E. cbn.
    destruct H as [-> | ->]; reflexivity.
Qed.

(** X11.  A key-down that is not Enter, or that comes without ALT, and
    every key-up, leaves [fullscreen] alone and makes no call into SDL:
    all it does is post its event. *)
Theorem key_without_alt_enter (sym kmod : Z) (s : state) :
  sym <> SDLK_RETURN \/ Z.land kmod KMOD_ALT = 0 ->
  ev_poll1 (SDL_KEYDOWN sym kmod) s
  = ev_postevent (mkEvent EV_PRESS (mapscancode sym)) s /\
  (forall up upmod : Z,
     ev_poll1 (SDL_KEYUP up upmod) s
     = ev_postevent (mkEvent EV_RELEASE (mapscancode up)) s).
Proof.
  intros H. split; [ | reflexivity ].
  unfold ev_poll1. cbn [ev_poll ev_switch state_of]. unfold seq, skip.
  destruct H as [H | H].
  - destruct (Z.eqb_spec sym SDLK_RETURN); [ contradiction | reflexivity ].
  - rewrite H. now rewrite andb_false_r.
Qed.

End Untouched.

Lemma alt_enter_toggles_witness :
  fullscreen (ev_poll1 (keys := sample_input_h) (SDL_KEYDOWN SDLK_RETURN 512)
                (ev_poll1 (keys := sample_input_h)
                   (SDL_KEYDOWN SDLK_RETURN 512) (vid_init startup)))
  = fullscreen (vid_init startup).
Proof.
  apply (alt_enter_toggles (keys := sample_input_h) 512 (vid_init startup)).
  - discriminate.
  - left. reflexivity.
Defined.

Lemma key_without_alt_enter_witness :
  ev_poll1 (keys := sample_input_h) (SDL_KEYDOWN SDLK_RETURN 1)
    (vid_init startup)
  = ev_postevent (mkEvent EV_PRESS 13) (vid_init startup).
Proof.
  apply (proj1 (key_without_alt_enter (keys := sample_input_h) SDLK_RETURN 1
                  (vid_init startup) (or_intror eq_refl))).
Defined.

(** ** Frames and window visibility *)

Lemma frame_hidden (s : state) :
  fb_enabled s = 0 ->
  host (frame s) = host s ++ hidden_frame_calls (screen s) /\
  screen (frame s) = screen s /\ fb_enabled (frame s) = 0.
Proof.
  intros H. unfold frame, vid_begin, vid_end, seq. cbn. rewrite H. cbn.
  rewrite <- app_assoc. auto.
Qed.

Lemma frame_shown (s : state) :
  fb_enabled s <> 0 ->
  host (frame s) = host s ++ shown_frame_calls (screen s) /\
  screen (frame s) = 1%nat /\ fb_enabled (frame s) = fb_enabled s.
Proof.
  intros H. unfold frame, vid_begin, vid_end, seq. cbn. unfold nonzero.
  destruct (Z.eqb_spec (fb_enabled s) 0); [ contradiction | ]. cbn.
  destruct (screen s =? 0)%nat; cbn; rewrite <- !app_assoc; auto.
Qed.

Lemma frames_hidden_host (n : nat) (s : state) :
  fb_enabled s = 0 ->
  host (frames n s)
  = host s ++ concat (repeat (hidden_frame_calls (screen s)) n) /\
  screen (frames n s) = screen s /\ fb_enabled (frames n s) = 0.
Proof.
  revert s. induction n as [|n IH]; intros s H.
  - cbn. rewrite app_nil_r. auto.
  - change (frames (S n) s) with (frames n (frame s)).
    destruct (frame_hidden s H) as (Hh & Hs & He).
    destruct (IH (frame s) He) as (Ih & Is & Ie).
    rewrite Ih, Is, Ie, Hh, Hs. cbn [repeat concat].
    rewrite <- app_assoc. auto.
Qed.

Lemma frames_shown_host (n : nat) (s : state) :
  fb_enabled s <> 0 -> screen s = 1%nat ->
  host (frames n s) = host s ++ concat (repeat (shown_frame_calls 1) n).
Proof.
  revert s. induction n as [|n IH]; intros s H H1.
  - cbn. now rewrite app_nil_r.
  - change (frames (S n) s) with (frames n (frame s)).
    destruct (frame_shown s H) as (Hh & Hs & He).
    rewrite IH, Hh, H1; [ | now rewrite He | exact Hs ].
    cbn [repeat concat]. now rewrite <- app_assoc.
Qed.

(** X12.  While [fb.enabled] is zero, any number of begin/end cycles only
    lock and unlock the front surface: no texture upload, no renderer
    call, and the front surface stays the same. *)
Theorem frames_while_hidden (n : nat) (s : state) :
  fb_enabled s = 0 ->
  host_by (frames n) s = concat (repeat (hidden_frame_calls (screen s)) n) /\
  screen (frames n s) = screen s /\
  fb_enabled (frames n s) = 0.
Proof.
  intros H. destruct (frames_hidden_host n s H) as (Hh & Hs & He).
  split; [ now apply host_by_intro | auto ].
Qed.

(** X13.  With [fb.enabled] non-zero, each begin/end cycle locks the front
    surface, unlocks it, uploads that same surface and clears, copies and
    presents, in this order; the first cycle works on the surface that is
    in front, every later one on screens[1]. *)
Theorem frames_while_shown (n : nat) (s : state) :
  fb_enabled s <> 0 ->
  host_by (frames (S n)) s
  = shown_frame_calls (screen s) ++ concat (repeat (shown_frame_calls 1) n).
Proof.
  intros H. apply host_by_intro.
  change (frames (S n) s) with (frames n (frame s)).
  destruct (frame_shown s H) as (Hh & Hs & He).
  rewrite frames_shown_host, Hh; [ | now rewrite He | exact Hs ].
  now rewrite <- app_assoc.
Qed.

Section Visibility.

Context {keys : input_h}.

(** X14.  Window events gate presentation: after a HIDDEN or MINIMIZED
    window event the next begin/end cycle only locks and unlocks the front
    surface; after a SHOWN or RESTORED one it uploads and presents it; any
    other window event changes nothing.  None of them posts an event. *)
Theorem window_event_gates_frame (e : Z) (s : state) :
  (e = SDL_WINDOWEVENT_HIDDEN \/ e = SDL_WINDOWEVENT_MINIMIZED ->
   host_by frame (ev_poll1 (SDL_WINDOWEVENT e) s)
   = hidden_frame_calls (screen s)) /\
  (e = SDL_WINDOWEVENT_SHOWN \/ e = SDL_WINDOWEVENT_RESTORED ->
   host_by frame (ev_poll1 (SDL_WINDOWEVENT e) s)
   = shown_frame_calls (screen s)) /\
  (~ In e [ SDL_WINDOWEVENT_HIDDEN; SDL_WINDOWEVENT_MINIMIZED;
            SDL_WINDOWEVENT_SHOWN; SDL_WINDOWEVENT_RESTORED ] ->
   ev_poll1 (SDL_WINDOWEVENT e) s = s) /\
  posted (ev_poll1 (SDL_WINDOWEVENT e) s) = posted s.
Proof.
  split; [ | split; [ | split ] ].
  - intros H.
    assert (E : ev_poll1 (SDL_WINDOWEVENT e) s = set_fb_enabled 0 s)
      by (destruct H as [-> | ->]; reflexivity).
    rewrite E. apply host_by_intro.
    now destruct (frame_hidden (set_fb_enabled 0 s) eq_refl) as (Hh & _).
  - intros H.
    assert (E : ev_poll1 (SDL_WINDOWEVENT e) s = set_fb_enabled 1 s)
      by (destruct H as [-> | ->]; reflexivity).
    rewrite E. apply host_by_intro.
    assert (H1 : fb_enabled (set_fb_enabled 1 s) <> 0) by discriminate.
    now destruct (frame_shown (set_fb_enabled 1 s) H1) as (Hh & _).
  - intros Hn. unfold ev_poll1. cbn [ev_poll ev_switch state_of].
    repeat match goal with
           | |- context [e =? ?c] =>
               destruct (Z.eqb_spec e c);
               [ exfalso; apply Hn; subst e; simpl; auto 6 | ]
           end.
    reflexivity.
  - unfold ev_poll1. cbn [ev_poll ev_switch state_of].
    repeat match goal with
           | |- context [if ?b then _ else _] => destruct b
           end; reflexivity.
Qed.

End Visibility.

Lemma frames_while_hidden_witness :
  host_by (frames 2) (set_fb_enabled 0 (vid_init startup))
  = [ SDL_LockSurface 0; SDL_UnlockSurface 0;
      SDL_LockSurface 0; SDL_UnlockSurface 0 ] /\
  screen (frames 2 (set_fb_enabled 0 (vid_init startup))) = 0%nat /\
  fb_enabled (frames 2 (set_fb_enabled 0 (vid_init startup))) = 0.
Proof.
  apply (frames_while_hidden 2 (set_fb_enabled 0 (vid_init startup))).
  reflexivity.
Defined.

Lemma frames_while_shown_witness :
  host_by (frames 2) (vid_init startup)
  = shown_frame_calls 0 ++ shown_frame_calls 1.
Proof.
  apply (frames_while_shown 1 (vid_init startup)). discriminate.
Defined.

Lemma window_event_gates_frame_witness :
  host_by frame (ev_poll1 (keys := sample_input_h)
                   (SDL_WINDOWEVENT SDL_WINDOWEVENT_MINIMIZED)
                   (vid_init startup))
  = [ SDL_LockSurface 0; SDL_UnlockSurface 0 ] /\
  host_by frame (ev_poll1 (keys := sample_input_h)
                   (SDL_WINDOWEVENT SDL_WINDOWEVENT_RESTORED)
                   (set_fb_enabled 0 (vid_init startup)))
  = shown_frame_calls 0 /\
  ev_poll1 (keys := sample_input_h) (SDL_WINDOWEVENT 5) (vid_init startup)
  = vid_init startup.
Proof.
  split; [ | split ].
  - apply (proj1 (window_event_gates_frame (keys := sample_input_h)
                    SDL_WINDOWEVENT_MINIMIZED (vid_init startup))).
    right. reflexivity.
  - apply (proj1 (proj2 (window_event_gates_frame (keys := sample_input_h)
                           SDL_WINDOWEVENT_RESTORED
                           (set_fb_enabled 0 (vid_init startup))))).
    right. reflexivity.
  - apply (proj1 (proj2 (proj2 (window_event_gates_frame
                                  (keys := sample_input_h) 5
                                  (vid_init startup))))).
    simpl. intros H.
    repeat (destruct H as [H | H]; [ discriminate H | ]). exact H.
Defined.

(** ** The key table's closing row *)

Section KeyTable.

Context {keys : input_h}.

Lemma mapscancode_scan_zero (rows : list (Z * Z)) :
  mapscancode_scan rows 0 = None.
Proof.
  induction rows as [|[k c] rows IH]; simpl; [ reflexivity | ].
  unfold nonzero. destruct (Z.eqb_spec k 0) as [-> | Hk]; simpl;
    [ reflexivity | ].
  destruct (Z.eqb_spec k 0); [ contradiction | exact IH ].
Qed.

Lemma mapscancode_scan_in (rows : list (Z * Z)) (sym c : Z) :
  mapscancode_scan rows sym = Some c -> In (sym, c) rows.
Proof.
  induction rows as [|[k c'] rows IH]; simpl; [ discriminate | ].
  destruct (nonzero k); [ | discriminate ].
  destruct (Z.eqb_spec k sym) as [-> | Hk].
  - intros [= ->]. now left.
  - intros H. right. now apply IH.
Qed.

(** X15.  The scan of the key table stops at the first row whose symbol
    is zero: whatever follows that row is never consulted. *)
Theorem mapscancode_scan_stops (pre post : list (Z * Z)) (c sym : Z) :
  mapscancode_scan (pre ++ (0, c) :: post) sym = mapscancode_scan pre sym.
Proof.
  induction pre as [|[k c'] pre IH]; simpl; [ reflexivity | ].
  destruct (nonzero k); [ | reflexivity ].
  destruct (k =? sym); [ reflexivity | exact IH ].
Qed.

(** X16.  Whatever the table, the code returned for a symbol is the code
    of a row of the table for that symbol, or the symbol itself when it is
    a digit or a lowercase letter, or 0; the symbol 0 is always mapped to
    0. *)
Theorem mapscancode_range (sym : Z) :
  (In (sym, mapscancode sym) keymap \/
   (alnum sym /\ mapscancode sym = sym) \/
   mapscancode sym = 0) /\
  mapscancode 0 = 0.
Proof.
  split.
  - destruct (mapscancode_scan keymap sym) as [c|] eqn:E.
    + left. unfold mapscancode. rewrite E. now apply mapscancode_scan_in.
    + right. unfold mapscancode, alnum. rewrite E.
      destruct (Z.geb_spec sym 48), (Z.leb_spec sym 57); simpl;
        try (left; split; [ lia | reflexivity ]);
        destruct (Z.geb_spec sym 97), (Z.leb_spec sym 122); simpl;
        try (left; split; [ lia | reflexivity ]); now right.
  - unfold mapscancode. now rewrite mapscancode_scan_zero.
Qed.

End KeyTable.

(** ** Opening the joystick *)

Lemma joy_open_loop_fail (h : joy_host) (left a : nat) (j : joy_statics) :
  (forall k, (a <= k < a + left)%nat -> SDL_JoystickOpen h (Z.of_nat k) = None) ->
  (0 < left)%nat ->
  joy_open_loop h left (Z.of_nat a) j
  = mkJoy (use_joy j) None (sdl_joy_num j)
      (joy_calls j ++ map call_JoystickOpen (map Z.of_nat (List.seq a left))).
Proof.
  revert a j. induction left as [|left IH]; intros a j Hf Hl; [ lia | ].
  cbn [joy_open_loop]. cbn. rewrite (Hf a) by lia.
  destruct left as [|left'].
  - reflexivity.
  - replace (Z.of_nat a + 1) with (Z.of_nat (S a)) by lia.
    rewrite IH; [ | intros k Hk; apply Hf; lia | lia ].
    unfold set_sdl_joy, joy_call_log. cbn [use_joy sdl_joy_num joy_calls].
    rewrite <- app_assoc. reflexivity.
Qed.

Lemma joy_open_loop_first
  (h : joy_host) (left a m hd : nat) (j : joy_statics) :
  (m < left)%nat ->
  SDL_JoystickOpen h (Z.of_nat (a + m)) = Some hd ->
  (forall k, (a <= k < a + m)%nat -> SDL_JoystickOpen h (Z.of_nat k) = None) ->
  joy_open_loop h left (Z.of_nat a) j
  = mkJoy (use_joy j) (Some hd) (Z.of_nat (a + m))
      (joy_calls j
       ++ map call_JoystickOpen (map Z.of_nat (List.seq a (S m)))).
Proof.
  revert left a j. induction m as [|m IH]; intros left a j Hm Ho Hf.
  - destruct left as [|left]; [ lia | ].
    rewrite Nat.add_0_r in *. cbn [joy_open_loop]. cbn. rewrite Ho.
    reflexivity.
  - destruct left as [|left]; [ lia | ].
    cbn [joy_open_loop]. cbn. rewrite (Hf a) by lia.
    replace (Z.of_nat a + 1) with (Z.of_nat (S a)) by lia.
    rewrite (IH left (S a));
      [ | lia | now replace (S a + m)%nat with (a + S m)%nat by lia
        | intros k Hk; apply Hf; lia ].
    unfold set_sdl_joy, joy_call_log. cbn [use_joy joy_calls].
    rewrite <- app_assoc.
    replace (S a + m)%nat with (a + S m)%nat by lia. reflexivity.
Qed.

(** X17.  With joysticks enabled and the subsystem initialised, the
    devices are tried from index 0 upwards and the first one that opens is
    kept: [sdl_joy] is its handle, [sdl_joy_num] its index, no later
    device is tried, and joystick events are then enabled. *)
Theorem joy_init_devices_first
  (h : joy_host) (j : joy_statics) (m hd : nat) :
  use_joy j <> 0 ->
  SDL_InitSubSystem h = 0 ->
  Z.of_nat m < SDL_NumJoysticks h ->
  SDL_JoystickOpen h (Z.of_nat m) = Some hd ->
  (forall k, (k < m)%nat -> SDL_JoystickOpen h (Z.of_nat k) = None) ->
  joy_init_devices h j
  = mkJoy (use_joy j) (Some hd) (Z.of_nat m)
      (joy_calls j
       ++ [call_InitSubSystem; call_NumJoysticks]
       ++ map call_JoystickOpen (device_indices (S m))
       ++ [call_JoystickEventState SDL_ENABLE]).
Proof.
  intros Hu Hi Hm Ho Hf. unfold joy_init_devices, nonzero.
  destruct (Z.eqb_spec (use_joy j) 0); [ contradiction | ]. cbn [negb].
  rewrite Hi. cbn [Z.eqb negb].
  destruct (Z.eqb_spec (SDL_NumJoysticks h) 0); [ lia | ]. cbn [negb].
  rewrite (joy_open_loop_first h (Z.to_nat (SDL_NumJoysticks h)) 0 m hd);
    [ | lia | exact Ho | intros k Hk; apply Hf; lia ].
  unfold joy_call_log, device_indices. cbn [use_joy sdl_joy sdl_joy_num joy_calls].
  rewrite <- !app_assoc. reflexivity.
Qed.

(** X18.  When there are devices but none opens, every index below the
    count has been tried once, in order, [sdl_joy] is NULL, [sdl_joy_num]
    is left as it was, and joystick events are enabled all the same.  A
    negative device count skips the loop and enables joystick events as
    well. *)
Theorem joy_init_devices_none_opens (h : joy_host) (j : joy_statics) :
  use_joy j <> 0 ->
  SDL_InitSubSystem h = 0 ->
  (0 < SDL_NumJoysticks h ->
   (forall i, 0 <= i < SDL_NumJoysticks h -> SDL_JoystickOpen h i = None) ->
   joy_init_devices h j
   = mkJoy (use_joy j) None (sdl_joy_num j)
       (joy_calls j
        ++ [call_InitSubSystem; call_NumJoysticks]
        ++ map call_JoystickOpen
             (device_indices (Z.to_nat (SDL_NumJoysticks h)))
        ++ [call_JoystickEventState SDL_ENABLE])) /\
  (SDL_NumJoysticks h < 0 ->
   joy_init_devices h j
   = mkJoy (use_joy j) (sdl_joy j) (sdl_joy_num j)
       (joy_calls j
        ++ [call_InitSubSystem; call_NumJoysticks;
            call_JoystickEventState SDL_ENABLE])).
Proof.
  intros Hu Hi. unfold joy_init_devices, nonzero.
  destruct (Z.eqb_spec (use_joy j) 0); [ contradiction | ]. cbn [negb].
  rewrite Hi. cbn [Z.eqb negb]. split.
  - intros Hc Hf.
    destruct (Z.eqb_spec (SDL_NumJoysticks h) 0); [ lia | ]. cbn [negb].
    rewrite (joy_open_loop_fail h (Z.to_nat (SDL_NumJoysticks h)) 0);
      [ | intros k Hk; apply Hf; lia | lia ].
    unfold joy_call_log, device_indices.
    cbn [use_joy sdl_joy sdl_joy_num joy_calls].
    rewrite <- !app_assoc. reflexivity.
  - intros Hc.
    destruct (Z.eqb_spec (SDL_NumJoysticks h) 0); [ lia | ]. cbn [negb].
    replace (Z.to_nat (SDL_NumJoysticks h)) with 0%nat by lia.
    unfold joy_call_log. cbn. rewrite <- !app_assoc. reflexivity.
Qed.

(** X19.  The three early returns: with joysticks disabled nothing is
    asked of SDL; when the subsystem fails to initialise only that call
    has been made; with no device present only the subsystem has been
    initialised and the devices counted.  In all three no device is
    opened, [sdl_joy] and [sdl_joy_num] are left as they were, and
    joystick events are not enabled. *)
Theorem joy_init_devices_returns_early (h : joy_host) (j : joy_statics) :
  (use_joy j = 0 -> joy_init_devices h j = j) /\
  (use_joy j <> 0 -> SDL_InitSubSystem h <> 0 ->
   joy_init_devices h j = joy_call_log call_InitSubSystem j) /\
  (use_joy j <> 0 -> SDL_InitSubSystem h = 0 -> SDL_NumJoysticks h = 0 ->
   joy_init_devices h j
   = joy_call_log call_NumJoysticks (joy_call_log call_InitSubSystem j)).
Proof.
  unfold joy_init_devices, nonzero. split; [ | split ].
  - intros ->. reflexivity.
  - intros Hu Hi.
    destruct (Z.eqb_spec (use_joy j) 0); [ contradiction | ].
    destruct (Z.eqb_spec (SDL_InitSubSystem h) 0); [ contradiction | ].
    reflexivity.
  - intros Hu -> ->.
    destruct (Z.eqb_spec (use_joy j) 0); [ contradiction | ]. reflexivity.
Qed.

Lemma joy_init_devices_first_witness :
  joy_init_devices sample_joy_host joy_startup
  = mkJoy 1 (Some 7%nat) 1
      [ call_InitSubSystem; call_NumJoysticks;
        call_JoystickOpen 0; call_JoystickOpen 1;
        call_JoystickEventState SDL_ENABLE ].
Proof.
  apply (joy_init_devices_first sample_joy_host joy_startup 1 7).
  - discriminate.
  - reflexivity.
  - reflexivity.
  - reflexivity.
  - intros k Hk. assert (k = 0%nat) as -> by lia. reflexivity.
Defined.

Lemma joy_init_devices_none_opens_witness :
  joy_init_devices closed_joy_host joy_startup
  = mkJoy 1 None 0
      [ call_InitSubSystem; call_NumJoysticks;
        call_JoystickOpen 0; call_JoystickOpen 1;
        call_JoystickEventState SDL_ENABLE ].
Proof.
  apply (proj1 (joy_init_devices_none_opens closed_joy_host joy_startup
                  ltac:(discriminate) eq_refl)).
  - reflexivity.
  - intros i Hi. reflexivity.
Defined.

Lemma joy_init_devices_returns_early_witness :
  joy_init_devices sample_joy_host (mkJoy 0 None 0 []) = mkJoy 0 None 0 [] /\
  joy_init_devices (mkJoyHost (-1) 3 (fun _ => Some 7%nat)) joy_startup
  = mkJoy 1 None 0 [call_InitSubSystem] /\
  joy_init_devices (mkJoyHost 0 0 (fun _ => Some 7%nat)) joy_startup
  = mkJoy 1 None 0 [call_InitSubSystem; call_NumJoysticks].
Proof.
  split; [ | split ].
  - apply (proj1 (joy_init_devices_returns_early sample_joy_host
                    (mkJoy 0 None 0 []))). reflexivity.
  - apply (proj1 (proj2 (joy_init_devices_returns_early
                           (mkJoyHost (-1) 3 (fun _ => Some 7%nat))
                           joy_startup))); discriminate.
  - apply (proj2 (proj2 (joy_init_devices_returns_early
                           (mkJoyHost 0 0 (fun _ => Some 7%nat))
                           joy_startup)));
      [ discriminate | reflexivity | reflexivity ].
Defined.

(** ** Window set-up *)

Lemma int32_small (x : Z) :
  - 2147483648 <= x < 2147483648 -> int32 x = x.
Proof. intros H. unfold int32. rewrite Z.mod_small; lia. Qed.

(** X20.  With either entry of [vmode] zero the window size is derived
    from the scale: the scale is raised to 1 when below, both entries are
    overwritten, the window is 160 x 144 times that scale, and the
    renderer is given the same scale.  (The bound on the scale keeps
    160 * scale within an [int].) *)
Theorem vid_init_setup_derived (vmode0 vmode1 scale fullscreen : Z) :
  vmode0 = 0 \/ vmode1 = 0 ->
  scale <= 13421772 ->
  vid_init_setup vmode0 vmode1 scale fullscreen 0 true
  = Window (160 * Z.max 1 scale) (144 * Z.max 1 scale)
      (if nonzero fullscreen then 3 else 2) (Z.max 1 scale).
Proof.
  intros Hv Hs. unfold vid_init_setup.
  assert (Hd : negb (nonzero vmode0) || negb (nonzero vmode1) = true).
  { unfold nonzero. destruct Hv as [-> | ->]; cbn; [ reflexivity | ].
    now rewrite orb_true_r. }
  rewrite Hd. cbn [nonzero Z.eqb negb].
  destruct (Z.ltb_spec scale 1).
  - rewrite Z.max_l by lia. cbn.
    destruct (nonzero fullscreen); reflexivity.
  - rewrite Z.max_r by lia. rewrite !int32_small by lia.
    destruct (nonzero fullscreen); reflexivity.
Qed.


(** X22.  [vid_init] ends in [die] exactly when SDL_Init reports an error
    or no window is created. *)
Theorem vid_init_setup_dies
  (vmode0 vmode1 scale fullscreen sdl_init : Z) (win : bool) :
  vid_init_setup vmode0 vmode1 scale fullscreen sdl_init win = Died
  <-> (sdl_init <> 0 \/ win = false).
Proof.
  unfold vid_init_setup, nonzero.
  destruct (Z.eqb_spec sdl_init 0) as [E | E]; cbn [negb].
  - destruct win; cbn [negb]; split.
    + discriminate.
    + intros [H | H]; [ contradiction | discriminate ].
    + now right.
    + reflexivity.
  - split; [ now left | reflexivity ].
Qed.

Lemma vid_init_setup_derived_witness :
  vid_init_setup 0 0 0 1 0 true = Window 160 144 3 1 /\
  vid_init_setup 640 0 3 0 0 true = Window 480 432 2 3.
Proof.
  split.
  - apply (vid_init_setup_derived 0 0 0 1); [ now left | lia ].
  - apply (vid_init_setup_derived 640 0 3 0); [ now right | lia ].
Defined.


(** ** The pixel pointer, and what the debouncer leaves alone *)

(** X23.  [vid_begin] points [fb.ptr] at the pixels of the front surface,
    whatever it pointed at before.  After a presented frame drawn on
    screens[0] the front surface has moved on while [fb.ptr] has not: it
    names the front surface again only after the next [vid_begin]. *)
Theorem fb_ptr_follows_begin (s : state) :
  fb_ptr (vid_begin s) = screen (vid_begin s) /\
  (fb_enabled s <> 0 -> screen s = 0%nat ->
   fb_ptr (frame s) = 0%nat /\ screen (frame s) = 1%nat /\
   fb_ptr (vid_begin (frame s)) = 1%nat).
Proof.
  split; [ reflexivity | ].
  intros He Hs. unfold frame, vid_begin, vid_end, seq. cbn. unfold nonzero.
  destruct (Z.eqb_spec (fb_enabled s) 0); [ contradiction | ]. cbn.
  rewrite Hs. cbn. auto.
Qed.

Lemma fb_ptr_follows_begin_witness :
  fb_ptr (frame (vid_init startup)) = 0%nat /\
  screen (frame (vid_init startup)) = 1%nat /\
  fb_ptr (vid_begin (frame (vid_init startup))) = 1%nat.
Proof.
  apply (proj2 (fb_ptr_follows_begin (vid_init startup)));
    [ discriminate | reflexivity ].
Defined.

Section Axes.

Context {keys : input_h}.

(** X24.  An update of one axis leaves the register of the other axis as
    it was, and every event it posts carries a code of its own axis's
    action table. *)
Theorem joyaxis_evt_own_axis
  (axis other : joyaxis) (v : joyaxisvalue) (s : state) :
  other <> axis ->
  axis_status other (joyaxis_evt axis v s) = axis_status other s /\
  (forall e, In e (posted_by (joyaxis_evt axis v) s) ->
             In (code e) (axis_action axis)).
Proof.
  intros Hne. split; [ now apply joyaxis_evt_status_other | ].
  intros e. rewrite joyaxis_evt_posted_by, !action_eq.
  destruct (jav_eqb (axis_status axis s) v); [ intros [] | ].
  rewrite not_centered_cases.
  destruct axis, (axis_status _ s), v; cbn;
    intros H; repeat (destruct H as [<- | H]; [ cbn; auto | ]);
    contradiction.
Qed.

(** X25.  Motion on an axis other than 0 and 1 is ignored: nothing is
    posted and no register changes, whatever the reading. *)
Theorem ev_poll_other_axis (jaxis value : Z) (s : state) :
  jaxis <> 0 -> jaxis <> 1 ->
  ev_poll1 (SDL_JOYAXISMOTION jaxis value) s = s.
Proof.
  intros H0 H1. unfold ev_poll1. cbn [ev_poll ev_switch].
  destruct (Z.eqb_spec jaxis 0); [ contradiction | ].
  destruct (Z.eqb_spec jaxis 1); [ contradiction | ]. reflexivity.
Qed.

End Axes.

Lemma joyaxis_evt_own_axis_witness :
  axis_status JA_Y (joyaxis_evt (keys := sample_input_h) JA_X
                      JAV_LEFT_OR_UP (vid_init startup))
  = axis_status JA_Y (vid_init startup).
Proof.
  apply (joyaxis_evt_own_axis (keys := sample_input_h) JA_X JA_Y
           JAV_LEFT_OR_UP (vid_init startup)).
  discriminate.
Defined.

Lemma ev_poll_other_axis_witness :
  ev_poll1 (keys := sample_input_h) (SDL_JOYAXISMOTION 2 32767)
    (vid_init startup) = vid_init startup.
Proof.
  apply (ev_poll_other_axis (keys := sample_input_h) 2 32767
           (vid_init startup)); discriminate.
Defined.
